(** * Aquacomputer Quadro hwmon driver: a shallow embedding and its properties

    The development follows [aquacomputer-quadro.c]: the fixed-width
    integer conversions of C, the unaligned big-endian readers, the
    [quadro_data] structure, the report decoder [quadro_raw_event], the
    read callbacks [quadro_read] and [quadro_read_string], the channel
    table [quadro_info], [quadro_probe] and [quadro_remove] with the
    kernel calls they make, and the debugfs files. *)

From Stdlib Require Import ZArith Lia Bool.
From Stdlib Require Import Strings.String Strings.Ascii Strings.Byte.
From Stdlib Require Import DecimalString DecimalN.
From stdpp Require Import base list.

Local Open Scope Z_scope.

(** ** C integer types

    Values of C integer types are integers of [Z]; a conversion to a
    narrower or to a signed type is written out where the C code performs
    one (every assignment to a field converts to the field's type). *)

Module CInt.

Definition cast_u8 (x : Z) : Z := x mod 2 ^ 8.
Definition cast_u16 (x : Z) : Z := x mod 2 ^ 16.
Definition cast_u32 (x : Z) : Z := x mod 2 ^ 32.

(** [s32]: two's complement on 32 bits. *)
Definition cast_s32 (x : Z) : Z :=
  let r := x mod 2 ^ 32 in
  if r <? 2 ^ 31 then r else r - 2 ^ 32.

(** [unsigned long] and [long] of an LP64 kernel. *)
Definition BITS_PER_LONG : Z := 64.
Definition cast_ulong (x : Z) : Z := x mod 2 ^ BITS_PER_LONG.
Definition cast_long (x : Z) : Z :=
  let r := x mod 2 ^ BITS_PER_LONG in
  if r <? 2 ^ (BITS_PER_LONG - 1) then r else r - 2 ^ BITS_PER_LONG.

Definition INT_MIN : Z := - 2 ^ 31.
Definition INT_MAX : Z := 2 ^ 31 - 1.
Definition U16_MAX : Z := 2 ^ 16 - 1.
Definition ULONG_MAX : Z := 2 ^ BITS_PER_LONG - 1.

Definition is_u16 (x : Z) : Prop := 0 <= x <= U16_MAX.
Definition is_u32 (x : Z) : Prop := 0 <= x < 2 ^ 32.
Definition is_ulong (x : Z) : Prop := 0 <= x <= ULONG_MAX.
Definition is_int (x : Z) : Prop := INT_MIN <= x <= INT_MAX.

End CInt.
Import CInt.

(** ** Memory seen through a [u8 *]

    [quadro_raw_event] receives a pointer [data] and, separately, the
    number [size] of bytes the transport delivered.  The pointer is
    modelled by the bytes found at each offset from it: offsets below
    [size] are the report, offsets from [size] on are whatever memory
    follows the report. *)

Definition u8_ptr : Type := Z -> byte.

Definition byte_val (b : byte) : Z := Z.of_N (Byte.to_N b).

Definition byte_of_Z (x : Z) : byte :=
  match Byte.of_N (Z.to_N (cast_u8 x)) with
  | Some b => b
  | None => x00
  end.

(** [p[i]] *)
Definition deref (p : u8_ptr) (i : Z) : Z := byte_val (p i).

(** [<asm/unaligned.h>]: [get_unaligned_be16(p)] is [p[0] << 8 | p[1]]. *)
Definition get_unaligned_be16 (p : u8_ptr) (off : Z) : Z :=
  cast_u16 (Z.lor (Z.shiftl (deref p off) 8) (deref p (off + 1))).

(** [get_unaligned_be32(p)] is
    [p[0] << 24 | p[1] << 16 | p[2] << 8 | p[3]], as a [u32]. *)
Definition get_unaligned_be32 (p : u8_ptr) (off : Z) : Z :=
  cast_u32
    (Z.lor (Z.lor (Z.lor (Z.shiftl (deref p off) 24)
                         (Z.shiftl (deref p (off + 1)) 16))
                  (Z.shiftl (deref p (off + 2)) 8))
           (deref p (off + 3))).

(** Writers, used to build synthetic reports: [p[i] = b] and
    [put_unaligned_be16(v, p)]. *)
Definition poke (p : u8_ptr) (i : Z) (b : byte) : u8_ptr :=
  fun j => if j =? i then b else p j.

Definition put_unaligned_be16 (v : Z) (p : u8_ptr) (off : Z) : u8_ptr :=
  poke (poke p off (byte_of_Z (Z.shiftr v 8))) (off + 1) (byte_of_Z v).

(** Memory that holds zero at every offset. *)
Definition zeroed : u8_ptr := fun _ => x00.

(** ** Kernel interfaces used by the driver *)

Module Hwmon.

(** [enum hwmon_sensor_types] of [<linux/hwmon.h>]. *)
Inductive hwmon_sensor_types : Type :=
| hwmon_chip
| hwmon_temp
| hwmon_in
| hwmon_curr
| hwmon_power
| hwmon_energy
| hwmon_humidity
| hwmon_fan
| hwmon_pwm
| hwmon_intrusion
| hwmon_max.

(** The two attribute bits the driver sets for each channel:
    [HWMON_x_INPUT] and [HWMON_x_LABEL]. *)
Inductive hwmon_attr : Type := ATTR_INPUT | ATTR_LABEL.

(** [HWMON_CHANNEL_INFO(type, config...)]: one configuration word per
    channel of the type. *)
Record hwmon_channel_info : Type := {
  info_type : hwmon_sensor_types;
  info_config : list (list hwmon_attr)
}.

(** Error numbers of [<linux/errno.h>]. *)
Definition ENOMEM : Z := 12.
Definition ENODATA : Z := 61.
Definition EOPNOTSUPP : Z := 95.

End Hwmon.
Import Hwmon.

#[global] Instance hwmon_sensor_types_eq_dec : EqDecision hwmon_sensor_types.
Proof. solve_decision. Defined.

(** What a read callback of the hwmon interface does:
    - [Ok v]: it returns 0 after storing [v] through its out pointer;
    - [Error e]: it returns the negative error number [e], the out pointer
      is not written;
    - [OutOfBounds]: it indexed an array of the driver outside its bounds.
      C gives this no meaning; the callback returns no error number
      (the statement after the [switch] is [return 0]). *)
Inductive result (A : Type) : Type :=
| Ok (v : A)
| Error (e : Z)
| OutOfBounds.
Arguments Ok {A} v.
Arguments Error {A} e.
Arguments OutOfBounds {A}.

(** [a[i]] for a C array [a] and an [int] index. *)
Definition array_read {A : Type} (a : list A) (i : Z) : result A :=
  if i <? 0 then OutOfBounds
  else match a !! Z.to_nat i with
       | Some v => Ok v
       | None => OutOfBounds
       end.

(** ** Constants of the driver *)

Definition QUADRO_STATUS_REPORT_ID : Z := 1.

(* Register offsets for the Quadro *)

Definition QUADRO_SERIAL_FIRST_PART : Z := 3.
Definition QUADRO_SERIAL_SECOND_PART : Z := 5.
Definition QUADRO_FIRMWARE_VERSION : Z := 13.
Definition QUADRO_POWER_CYCLES : Z := 24.

Definition QUADRO_TEMP1 : Z := 52.
Definition QUADRO_TEMP2 : Z := 54.
Definition QUADRO_TEMP3 : Z := 56.
Definition QUADRO_TEMP4 : Z := 58.

Definition QUADRO_FLOW_SPEED : Z := 110.
Definition QUADRO_FAN1_SPEED : Z := 120.
Definition QUADRO_FAN2_SPEED : Z := 133.
Definition QUADRO_FAN3_SPEED : Z := 146.
Definition QUADRO_FAN4_SPEED : Z := 159.

Definition QUADRO_FAN1_POWER : Z := 118.
Definition QUADRO_FAN2_POWER : Z := 131.
Definition QUADRO_FAN3_POWER : Z := 144.
Definition QUADRO_FAN4_POWER : Z := 157.

Definition QUADRO_VOLTAGE : Z := 108.
Definition QUADRO_FAN1_VOLTAGE : Z := 114.
Definition QUADRO_FAN2_VOLTAGE : Z := 127.
Definition QUADRO_FAN3_VOLTAGE : Z := 140.
Definition QUADRO_FAN4_VOLTAGE : Z := 153.

Definition QUADRO_FAN1_CURRENT : Z := 116.
Definition QUADRO_FAN2_CURRENT : Z := 129.
Definition QUADRO_FAN3_CURRENT : Z := 142.
Definition QUADRO_FAN4_CURRENT : Z := 155.

(* Labels for provided values *)

Definition label_temps : list string :=
  ["Temp1"; "Temp2"; "Temp3"; "Temp4"]%string.

Definition label_speeds : list string :=
  ["Flow speed [l/h]"; "Fan1 speed"; "Fan2 speed"; "Fan3 speed";
   "Fan4 speed"]%string.

Definition label_power : list string :=
  ["Fan1 power"; "Fan2 power"; "Fan3 power"; "Fan4 power"]%string.

Definition label_voltages : list string :=
  ["VCC"; "Fan1 voltage"; "Fan2 voltage"; "Fan3 voltage";
   "Fan4 voltage"]%string.

Definition label_current : list string :=
  ["Fan1 current"; "Fan2 current"; "Fan3 current"; "Fan4 current"]%string.

(** ** Device state: [struct quadro_data]

    Pointers are kept as addresses; each array is a list whose length is
    the array's declared size (see [quadro_data_wf]). *)

Record quadro_data : Type := {
  hdev : Z;
  hwmon_dev : Z;
  debugfs : Z;
  temp_input : list Z;       (* s32 temp_input[4] *)
  speed_input : list Z;      (* u16 speed_input[5] *)
  power_input : list Z;      (* u32 power_input[4] *)
  voltage_input : list Z;    (* u16 voltage_input[5] *)
  current_input : list Z;    (* u16 current_input[4] *)
  serial_number : list Z;    (* u32 serial_number[2] *)
  firmware_version : Z;      (* u16 *)
  power_cycles : Z;          (* u32 *)
  updated : Z                (* unsigned long *)
}.

(** The array sizes fixed by the declaration of the structure. *)
Record quadro_data_wf (priv : quadro_data) : Prop := {
  wf_temp : length (temp_input priv) = 4%nat;
  wf_speed : length (speed_input priv) = 5%nat;
  wf_power : length (power_input priv) = 4%nat;
  wf_voltage : length (voltage_input priv) = 5%nat;
  wf_current : length (current_input priv) = 4%nat;
  wf_serial : length (serial_number priv) = 2%nat
}.

(** [struct hid_report]: the driver reads its [id] only. *)
Record hid_report : Type := { report_id : Z }.

(** [quadro_is_visible]: every attribute is read-only, mode 0444. *)
Definition quadro_is_visible (data : Z) (type : hwmon_sensor_types)
    (attr : Z) (channel : Z) : Z := 292.

(** [quadro_info]: four temperature, five fan, four power, five voltage
    and four current channels, each with an input and a label. *)
Definition quadro_info : list hwmon_channel_info :=
  let c := [ATTR_INPUT; ATTR_LABEL] in
  [ {| info_type := hwmon_temp; info_config := [c; c; c; c] |};
    {| info_type := hwmon_fan; info_config := [c; c; c; c; c] |};
    {| info_type := hwmon_power; info_config := [c; c; c; c] |};
    {| info_type := hwmon_in; info_config := [c; c; c; c; c] |};
    {| info_type := hwmon_curr; info_config := [c; c; c; c] |} ].

(** The number of channels [quadro_info] registers for a sensor type. *)
Definition channel_count (type : hwmon_sensor_types) : Z :=
  match List.find (fun i => bool_decide (info_type i = type)) quadro_info with
  | Some i => Z.of_nat (length (info_config i))
  | None => 0
  end.

(** The (type, channel) pairs the hwmon core exposes for this driver. *)
Definition valid_channel (type : hwmon_sensor_types) (channel : Z) : Prop :=
  0 <= channel < channel_count type.

Definition valid_channelb (type : hwmon_sensor_types) (channel : Z) : bool :=
  (0 <=? channel) && (channel <? channel_count type).

(** ** The callbacks *)

(** [time_after(a, b)] of [<linux/jiffies.h>]: [(long)((b) - (a)) < 0]. *)
Definition time_after (a b : Z) : bool := cast_long (b - a) <? 0.

Section Driver.

(** [HZ], the number of jiffies in a second, is fixed by the kernel
    configuration. *)
Variable HZ : Z.

Definition QUADRO_STATUS_UPDATE_INTERVAL : Z := 2 * HZ.

(** [quadro_read]; [jiffies] is the value of the kernel's tick counter
    when the callback runs.  The stored [s32], [u16] and [u32] values
    widen to [long] unchanged. *)
Definition quadro_read (priv : quadro_data) (jiffies : Z)
    (type : hwmon_sensor_types) (attr : Z) (channel : Z) : result Z :=
  if time_after jiffies
       (cast_ulong (updated priv + QUADRO_STATUS_UPDATE_INTERVAL))
  then Error (- ENODATA)
  else
    match type with
    | hwmon_temp => array_read (temp_input priv) channel
    | hwmon_fan => array_read (speed_input priv) channel
    | hwmon_power => array_read (power_input priv) channel
    | hwmon_in => array_read (voltage_input priv) channel
    | hwmon_curr => array_read (current_input priv) channel
    | _ => Error (- EOPNOTSUPP)
    end.

Definition quadro_read_string (priv : quadro_data)
    (type : hwmon_sensor_types) (attr : Z) (channel : Z) : result string :=
  match type with
  | hwmon_temp => array_read label_temps channel
  | hwmon_fan => array_read label_speeds channel
  | hwmon_power => array_read label_power channel
  | hwmon_in => array_read label_voltages channel
  | hwmon_curr => array_read label_current channel
  | _ => Error (- EOPNOTSUPP)
  end.

(** [quadro_raw_event]: the return value and the device state it
    leaves.  [size] is received and never consulted. *)
Definition quadro_raw_event (priv : quadro_data) (report : hid_report)
    (data : u8_ptr) (size : Z) (jiffies : Z) : Z * quadro_data :=
  if negb (report_id report =? QUADRO_STATUS_REPORT_ID) then (0, priv)
  else
    let be16 := get_unaligned_be16 data in
    (0,
     {| hdev := hdev priv;
        hwmon_dev := hwmon_dev priv;
        debugfs := debugfs priv;
        (* Info provided with every report *)
        serial_number :=
          <[1%nat := cast_u32 (be16 QUADRO_SERIAL_SECOND_PART)]>
          (<[0%nat := cast_u32 (be16 QUADRO_SERIAL_FIRST_PART)]>
           (serial_number priv));
        firmware_version := cast_u16 (be16 QUADRO_FIRMWARE_VERSION);
        power_cycles :=
          cast_u32 (get_unaligned_be32 data QUADRO_POWER_CYCLES);
        (* Sensor readings *)
        temp_input :=
          <[3%nat := cast_s32 (be16 QUADRO_TEMP4 * 10)]>
          (<[2%nat := cast_s32 (be16 QUADRO_TEMP3 * 10)]>
           (<[1%nat := cast_s32 (be16 QUADRO_TEMP2 * 10)]>
            (<[0%nat := cast_s32 (be16 QUADRO_TEMP1 * 10)]>
             (temp_input priv))));
        speed_input :=
          <[4%nat := cast_u16 (be16 QUADRO_FAN4_SPEED)]>
          (<[3%nat := cast_u16 (be16 QUADRO_FAN3_SPEED)]>
           (<[2%nat := cast_u16 (be16 QUADRO_FAN2_SPEED)]>
            (<[1%nat := cast_u16 (be16 QUADRO_FAN1_SPEED)]>
             (<[0%nat := cast_u16 (be16 QUADRO_FLOW_SPEED ÷ 10)]>
              (speed_input priv)))));
        power_input :=
          <[3%nat := cast_u32 (be16 QUADRO_FAN4_POWER * 10000)]>
          (<[2%nat := cast_u32 (be16 QUADRO_FAN3_POWER * 10000)]>
           (<[1%nat := cast_u32 (be16 QUADRO_FAN2_POWER * 10000)]>
            (<[0%nat := cast_u32 (be16 QUADRO_FAN1_POWER * 10000)]>
             (power_input priv))));
        voltage_input :=
          <[4%nat := cast_u16 (be16 QUADRO_FAN4_VOLTAGE * 10)]>
          (<[3%nat := cast_u16 (be16 QUADRO_FAN3_VOLTAGE * 10)]>
           (<[2%nat := cast_u16 (be16 QUADRO_FAN2_VOLTAGE * 10)]>
            (<[1%nat := cast_u16 (be16 QUADRO_FAN1_VOLTAGE * 10)]>
             (<[0%nat := cast_u16 (be16 QUADRO_VOLTAGE * 10)]>
              (voltage_input priv)))));
        current_input :=
          <[3%nat := cast_u16 (be16 QUADRO_FAN4_CURRENT)]>
          (<[2%nat := cast_u16 (be16 QUADRO_FAN3_CURRENT)]>
           (<[1%nat := cast_u16 (be16 QUADRO_FAN2_CURRENT)]>
            (<[0%nat := cast_u16 (be16 QUADRO_FAN1_CURRENT)]>
             (current_input priv))));
        updated := jiffies |}).

(** What the kernel answers to the calls [quadro_probe] makes. *)
Record probe_env : Type := {
  kzalloc_ok : bool;          (* devm_kzalloc returned memory *)
  hid_parse_ret : Z;
  hid_hw_start_ret : Z;
  hid_hw_open_ret : Z;
  hwmon_register_ret : Z;     (* a pointer, or ERR_PTR(-errno) *)
  debugfs_dir : Z             (* debugfs_create_dir, 0 without debugfs *)
}.

(** [IS_ERR(ptr)]: the address is one of the last [MAX_ERRNO] ones,
    read here as a [long]. *)
Definition IS_ERR (ptr : Z) : bool := (-4095 <=? ptr) && (ptr <? 0).

(** The memory [devm_kzalloc] hands out: every field zero. *)
Definition kzalloc_quadro_data : quadro_data :=
  {| hdev := 0; hwmon_dev := 0; debugfs := 0;
     temp_input := replicate 4 0;
     speed_input := replicate 5 0;
     power_input := replicate 4 0;
     voltage_input := replicate 5 0;
     current_input := replicate 4 0;
     serial_number := replicate 2 0;
     firmware_version := 0;
     power_cycles := 0;
     updated := 0 |}.

(** The device state once [quadro_probe] has run its line
    [priv->updated = jiffies - QUADRO_STATUS_UPDATE_INTERVAL]. *)
Definition quadro_probe_created (hdev_ptr : Z) (jiffies : Z) : quadro_data :=
  let priv := kzalloc_quadro_data in
  {| hdev := hdev_ptr;
     hwmon_dev := hwmon_dev priv;
     debugfs := debugfs priv;
     temp_input := temp_input priv;
     speed_input := speed_input priv;
     power_input := power_input priv;
     voltage_input := voltage_input priv;
     current_input := current_input priv;
     serial_number := serial_number priv;
     firmware_version := firmware_version priv;
     power_cycles := power_cycles priv;
     updated := cast_ulong (jiffies - QUADRO_STATUS_UPDATE_INTERVAL) |}.

Definition set_hwmon_dev (ptr : Z) (dir : Z) (priv : quadro_data)
    : quadro_data :=
  {| hdev := hdev priv;
     hwmon_dev := ptr;
     debugfs := dir;
     temp_input := temp_input priv;
     speed_input := speed_input priv;
     power_input := power_input priv;
     voltage_input := voltage_input priv;
     current_input := current_input priv;
     serial_number := serial_number priv;
     firmware_version := firmware_version priv;
     power_cycles := power_cycles priv;
     updated := updated priv |}.

(** [quadro_probe]: the return value and the driver data attached to
    the device ([None] when the allocation failed). *)
Definition quadro_probe (env : probe_env) (hdev_ptr : Z) (jiffies : Z)
    : Z * option quadro_data :=
  if negb (kzalloc_ok env) then (- ENOMEM, None)
  else
    let priv := quadro_probe_created hdev_ptr jiffies in
    if negb (hid_parse_ret env =? 0) then (hid_parse_ret env, Some priv)
    else if negb (hid_hw_start_ret env =? 0)
    then (hid_hw_start_ret env, Some priv)
    else if negb (hid_hw_open_ret env =? 0)
    then (hid_hw_open_ret env, Some priv)
    else if IS_ERR (hwmon_register_ret env)
    then (hwmon_register_ret env,
          Some (set_hwmon_dev (hwmon_register_ret env) 0 priv))
    else (0, Some (set_hwmon_dev (hwmon_register_ret env)
                     (debugfs_dir env) priv)).

End Driver.

(** The value a channel holds in the device state. *)
Definition stored_value (priv : quadro_data) (type : hwmon_sensor_types)
    (channel : nat) : option Z :=
  match type with
  | hwmon_temp => temp_input priv !! channel
  | hwmon_fan => speed_input priv !! channel
  | hwmon_power => power_input priv !! channel
  | hwmon_in => voltage_input priv !! channel
  | hwmon_curr => current_input priv !! channel
  | _ => None
  end.

(** The snapshot and identity part of the state: everything but the
    timestamp. *)
Definition with_updated (t : Z) (priv : quadro_data) : quadro_data :=
  {| hdev := hdev priv;
     hwmon_dev := hwmon_dev priv;
     debugfs := debugfs priv;
     temp_input := temp_input priv;
     speed_input := speed_input priv;
     power_input := power_input priv;
     voltage_input := voltage_input priv;
     current_input := current_input priv;
     serial_number := serial_number priv;
     firmware_version := firmware_version priv;
     power_cycles := power_cycles priv;
     updated := t |}.

(** A status report: [report->id] is [QUADRO_STATUS_REPORT_ID]. *)
Definition status_report : hid_report :=
  {| report_id := QUADRO_STATUS_REPORT_ID |}.

(** The state a status report leaves, field by field. *)
Definition decoded (priv : quadro_data) (data : u8_ptr) (jiffies : Z)
    : quadro_data :=
  let be16 := get_unaligned_be16 data in
  {| hdev := hdev priv;
     hwmon_dev := hwmon_dev priv;
     debugfs := debugfs priv;
     temp_input := (fun off => be16 off * 10) <$> [52; 54; 56; 58];
     speed_input := be16 110 / 10 :: (be16 <$> [120; 133; 146; 159]);
     power_input := (fun off => be16 off * 10000) <$> [118; 131; 144; 157];
     voltage_input :=
       (fun off => cast_u16 (be16 off * 10)) <$> [108; 114; 127; 140; 153];
     current_input := be16 <$> [116; 129; 142; 155];
     serial_number := be16 <$> [3; 5];
     firmware_version := be16 13;
     power_cycles := get_unaligned_be32 data 24;
     updated := jiffies |}.

(** The test [quadro_read] starts with. *)
Definition stale (HZ : Z) (priv : quadro_data) (now : Z) : bool :=
  time_after now (cast_ulong (updated priv + QUADRO_STATUS_UPDATE_INTERVAL HZ)).

(** An error return that is not the staleness one. *)
Definition ChannelNotFound {A : Type} (r : result A) : Prop :=
  exists e, r = Error e /\ e <> - ENODATA.

(** ** The debugfs files *)

Definition DRIVER_NAME : string := "aquacomputer-quadro".

(** The conversion [%u] of the kernel's [printf] family: the decimal
    digits of an unsigned number, without leading zeros. *)
Definition format_u (n : Z) : string :=
  NilEmpty.string_of_uint (N.to_uint (Z.to_N n)).

(** A field width with the [0] flag: zeros on the left up to [width]
    characters; a longer text is left as it is. *)
Definition zero_pad (width : nat) (s : string) : string :=
  (string_of_list_ascii (replicate (width - String.length s) "0"%char)
   ++ s)%string.

(** The conversion [%05u]. *)
Definition format_05u (n : Z) : string := zero_pad 5 (format_u n).

Definition newline : string := String (ascii_of_nat 10) EmptyString.

(** [serial_number_show], [firmware_version_show] and
    [power_cycles_show]: the text [seq_printf] appends to the file; each
    of them returns 0. *)
Definition serial_number_show (priv : quadro_data) : result string :=
  match array_read (serial_number priv) 0,
        array_read (serial_number priv) 1 with
  | Ok a, Ok b =>
      Ok (format_05u a ++ "-" ++ format_05u b ++ newline)%string
  | _, _ => OutOfBounds
  end.

Definition firmware_version_show (priv : quadro_data) : string :=
  (format_u (firmware_version priv) ++ newline)%string.

Definition power_cycles_show (priv : quadro_data) : string :=
  (format_u (power_cycles priv) ++ newline)%string.

(** [scnprintf(buf, size, ...)]: the text is cut to [size - 1]
    characters, the last byte of the buffer being the terminator. *)
Definition scnprintf (size : nat) (text : string) : string :=
  String.substring 0 (size - 1) text.

(** The directory name [quadro_debugfs_init] builds in [char name[32]]
    from the driver name and the device name. *)
Definition quadro_debugfs_name (dev_name : string) : string :=
  scnprintf 32 (DRIVER_NAME ++ "-" ++ dev_name)%string.

(** Reading a decimal text back, leading zeros allowed. *)
Definition parse_u (s : string) : option Z :=
  match NilEmpty.uint_of_string s with
  | Some d => Some (Z.of_N (N.of_uint d))
  | None => None
  end.

(** ** The calls of [quadro_probe] and [quadro_remove]

    The kernel functions the two callbacks call, in the order they call
    them, each with what it returned or was given. *)

Inductive kernel_call : Type :=
| devm_kzalloc (ok : bool)
| hid_set_drvdata
| hid_parse (ret : Z)
| hid_hw_start (ret : Z)
| hid_hw_open (ret : Z)
| hwmon_device_register_with_info (ret : Z)
| debugfs_create_dir (dir : Z)
| debugfs_remove_recursive (dir : Z)
| hwmon_device_unregister (ptr : Z)
| hid_hw_close
| hid_hw_stop.

Definition quadro_probe_calls (env : probe_env) : list kernel_call :=
  devm_kzalloc (kzalloc_ok env) ::
  if negb (kzalloc_ok env) then []
  else
    hid_set_drvdata :: hid_parse (hid_parse_ret env) ::
    if negb (hid_parse_ret env =? 0) then []
    else
      hid_hw_start (hid_hw_start_ret env) ::
      if negb (hid_hw_start_ret env =? 0) then []
      else
        hid_hw_open (hid_hw_open_ret env) ::
        if negb (hid_hw_open_ret env =? 0) then [hid_hw_stop]
        else
          hwmon_device_register_with_info (hwmon_register_ret env) ::
          if IS_ERR (hwmon_register_ret env) then [hid_hw_close; hid_hw_stop]
          else [debugfs_create_dir (debugfs_dir env)].

Definition quadro_remove_calls (priv : quadro_data) : list kernel_call :=
  [debugfs_remove_recursive (debugfs priv);
   hwmon_device_unregister (hwmon_dev priv);
   hid_hw_close;
   hid_hw_stop].

(** What the kernel holds for the device: whether the HID hardware is
    stopped, started or open, the hwmon device registered for it and its
    debugfs directory. *)
Inductive hw_state : Type := hw_stopped | hw_started | hw_open.

Record device_resources : Type := {
  hw : hw_state;
  hwmon_registered : option Z;
  debugfs_created : option Z
}.

Definition no_resources : device_resources :=
  {| hw := hw_stopped; hwmon_registered := None; debugfs_created := None |}.

(** One call applied to the resources; [None] when the call is not
    allowed in that state (starting twice, opening before starting,
    closing what is not open, stopping while open, unregistering what is
    not registered).  A null directory stands for no directory. *)
Definition kernel_step (s : device_resources) (c : kernel_call)
    : option device_resources :=
  match c with
  | devm_kzalloc _ | hid_set_drvdata | hid_parse _ => Some s
  | hid_hw_start ret =>
      match hw s with
      | hw_stopped =>
          Some {| hw := if ret =? 0 then hw_started else hw_stopped;
                  hwmon_registered := hwmon_registered s;
                  debugfs_created := debugfs_created s |}
      | _ => None
      end
  | hid_hw_open ret =>
      match hw s with
      | hw_started =>
          Some {| hw := if ret =? 0 then hw_open else hw_started;
                  hwmon_registered := hwmon_registered s;
                  debugfs_created := debugfs_created s |}
      | _ => None
      end
  | hid_hw_close =>
      match hw s with
      | hw_open =>
          Some {| hw := hw_started;
                  hwmon_registered := hwmon_registered s;
                  debugfs_created := debugfs_created s |}
      | _ => None
      end
  | hid_hw_stop =>
      match hw s with
      | hw_started =>
          Some {| hw := hw_stopped;
                  hwmon_registered := hwmon_registered s;
                  debugfs_created := debugfs_created s |}
      | _ => None
      end
  | hwmon_device_register_with_info ret =>
      match hwmon_registered s with
      | None =>
          Some {| hw := hw s;
                  hwmon_registered := if IS_ERR ret then None else Some ret;
                  debugfs_created := debugfs_created s |}
      | Some _ => None
      end
  | hwmon_device_unregister ptr =>
      match hwmon_registered s with
      | Some p =>
          if p =? ptr
          then Some {| hw := hw s;
                       hwmon_registered := None;
                       debugfs_created := debugfs_created s |}
          else None
      | None => None
      end
  | debugfs_create_dir dir =>
      match debugfs_created s with
      | None =>
          Some {| hw := hw s;
                  hwmon_registered := hwmon_registered s;
                  debugfs_created := if dir =? 0 then None else Some dir |}
      | Some _ => None
      end
  | debugfs_remove_recursive dir =>
      if dir =? 0 then Some s
      else
        match debugfs_created s with
        | Some d =>
            if d =? dir
            then Some {| hw := hw s;
                         hwmon_registered := hwmon_registered s;
                         debugfs_created := None |}
            else None
        | None => None
        end
  end.

Fixpoint kernel_run (s : device_resources) (cs : list kernel_call)
    : option device_resources :=
  match cs with
  | [] => Some s
  | c :: cs' =>
      match kernel_step s c with
      | Some s' => kernel_run s' cs'
      | None => None
      end
  end.

(** The resources a successful probe holds. *)
Definition probed_resources (env : probe_env) : device_resources :=
  {| hw := hw_open;
     hwmon_registered := Some (hwmon_register_ret env);
     debugfs_created :=
       if debugfs_dir env =? 0 then None else Some (debugfs_dir env) |}.

(** A test run on every positive number of at most [S k] bits. *)
Fixpoint forall_pos (k : nat) (P : positive -> bool) : bool :=
  P 1%positive &&
  match k with
  | O => true
  | S k' =>
      forall_pos k' (fun p => P (p~0)%positive) &&
      forall_pos k' (fun p => P (p~1)%positive)
  end.

(** ** Ranges of the fields

    Each field holds a value of its C type. *)

Definition is_s32 (x : Z) : Prop := - 2 ^ 31 <= x < 2 ^ 31.

Record quadro_data_typed (priv : quadro_data) : Prop := {
  typed_temp : Forall is_s32 (temp_input priv);
  typed_speed : Forall is_u16 (speed_input priv);
  typed_power : Forall is_u32 (power_input priv);
  typed_voltage : Forall is_u16 (voltage_input priv);
  typed_current : Forall is_u16 (current_input priv);
  typed_serial : Forall is_u32 (serial_number priv);
  typed_firmware : is_u16 (firmware_version priv);
  typed_cycles : is_u32 (power_cycles priv);
  typed_updated : is_ulong (updated priv)
}.

(** ** The layout of a status report

    The big-endian 16-bit number at an offset, and the number a channel
    takes its value from.  The four temperatures follow one another from
    offset 52; each fan has a block of 13 bytes, the first at offset
    114, with its voltage, current, power and speed at 0, 2, 4 and 6
    bytes into the block. *)

Definition be16_at (data : u8_ptr) (off : Z) : Z :=
  256 * deref data off + deref data (off + 1).

Definition fan_block (fan : Z) : Z := 114 + 13 * fan.

Definition channel_value (data : u8_ptr) (type : hwmon_sensor_types)
    (channel : Z) : Z :=
  match type with
  | hwmon_temp => be16_at data (52 + 2 * channel) * 10
  | hwmon_fan =>
      if channel =? 0 then be16_at data 110 / 10
      else be16_at data (fan_block (channel - 1) + 6)
  | hwmon_power => be16_at data (fan_block channel + 4) * 10000
  | hwmon_in =>
      if channel =? 0 then (be16_at data 108 * 10) mod 65536
      else (be16_at data (fan_block (channel - 1)) * 10) mod 65536
  | hwmon_curr => be16_at data (fan_block channel + 2)
  | _ => 0
  end.

(** ** The states a device goes through

    The state [quadro_probe] attaches to the device, and every state a
    report leaves from there; the tick counter is an [unsigned long]. *)

Inductive reachable (HZ : Z) : quadro_data -> Prop :=
| reachable_probe env hdev_ptr jiffies ret priv :
    is_ulong jiffies ->
    quadro_probe HZ env hdev_ptr jiffies = (ret, Some priv) ->
    reachable HZ priv
| reachable_event priv r data size jiffies :
    reachable HZ priv ->
    is_ulong jiffies ->
    reachable HZ (quadro_raw_event priv r data size jiffies).2.

(** What holds of the values of a state besides their types: every
    temperature is a multiple of 10 from 0 to 655350, the flow speed is
    at most 6553, every power is a multiple of 10000 up to 655350000,
    and the serial number parts fit 16 bits. *)
Record quadro_data_bounds (priv : quadro_data) : Prop := {
  bounds_temp :
    Forall (fun t => 0 <= t <= 655350 /\ t mod 10 = 0) (temp_input priv);
  bounds_flow :
    forall v, speed_input priv !! 0%nat = Some v -> 0 <= v <= 6553;
  bounds_power :
    Forall (fun p => 0 <= p <= 655350000 /\ p mod 10000 = 0)
      (power_input priv);
  bounds_serial : Forall is_u16 (serial_number priv)
}.

(** ** Integer conversions *)

Lemma cast_u16_id x : is_u16 x -> cast_u16 x = x.
Proof.
  unfold is_u16, U16_MAX, cast_u16. intros H.
  apply Z.mod_small. lia.
Qed.

Lemma cast_u32_id x : is_u32 x -> cast_u32 x = x.
Proof. unfold is_u32, cast_u32. intros H. apply Z.mod_small. lia. Qed.

Lemma cast_s32_id x : is_int x -> cast_s32 x = x.
Proof.
  unfold is_int, INT_MIN, INT_MAX, cast_s32. intros H.
  destruct (Z_lt_le_dec x 0) as [Hneg | Hpos].
  - replace (x mod 2 ^ 32) with (x + 2 ^ 32).
    + destruct (Z.ltb_spec (x + 2 ^ 32) (2 ^ 31)); lia.
    + apply Z.mod_unique with (q := -1); lia.
  - rewrite Z.mod_small by lia.
    destruct (Z.ltb_spec x (2 ^ 31)); lia.
Qed.

Lemma cast_u16_range x : is_u16 (cast_u16 x).
Proof.
  unfold is_u16, U16_MAX, cast_u16.
  pose proof (Z.mod_pos_bound x (2 ^ 16)). lia.
Qed.

Lemma cast_ulong_range x : is_ulong (cast_ulong x).
Proof.
  unfold is_ulong, ULONG_MAX, cast_ulong, BITS_PER_LONG.
  pose proof (Z.mod_pos_bound x (2 ^ 64)). lia.
Qed.

Lemma cast_ulong_id x : is_ulong x -> cast_ulong x = x.
Proof.
  unfold is_ulong, ULONG_MAX, cast_ulong, BITS_PER_LONG. intros H.
  apply Z.mod_small. lia.
Qed.

(** ** The big-endian readers *)

Lemma byte_val_range b : 0 <= byte_val b < 256.
Proof.
  unfold byte_val. pose proof (Byte.to_N_bounded b). lia.
Qed.

Lemma byte_val_of_Z x : byte_val (byte_of_Z x) = cast_u8 x.
Proof.
  unfold byte_val, byte_of_Z, cast_u8.
  pose proof (Z.mod_pos_bound x (2 ^ 8)) as Hb.
  destruct (Byte.of_N (Z.to_N (x mod 2 ^ 8))) as [b|] eqn:E.
  - apply Byte.to_of_N in E. rewrite E. lia.
  - apply Byte.of_N_None_iff in E. lia.
Qed.

(** Two bytes glued by shift and or are the usual base-256 number. *)
Lemma land_shifted_byte hi lo :
  0 <= lo < 256 -> Z.land (hi * 2 ^ 8) lo = 0.
Proof.
  intros Hlo. apply Z.bits_inj'. intros n Hn.
  rewrite Z.land_spec, Z.bits_0.
  destruct (Z_lt_le_dec n 8).
  - rewrite Z.mul_pow2_bits_low by lia. reflexivity.
  - replace (Z.testbit lo n) with false; [apply andb_false_r|].
    symmetry. destruct (Z.eq_dec lo 0) as [->|]; [apply Z.bits_0|].
    apply Z.bits_above_log2; [lia|].
    apply Z.log2_lt_pow2; [lia|].
    apply Z.lt_le_trans with (2 ^ 8); [lia|].
    apply Z.pow_le_mono_r; lia.
Qed.

Lemma shift_or_bytes hi lo :
  0 <= lo < 256 -> Z.lor (Z.shiftl hi 8) lo = 256 * hi + lo.
Proof.
  intros Hlo.
  rewrite Z.shiftl_mul_pow2 by lia.
  pose proof (land_shifted_byte hi lo Hlo) as Hland.
  rewrite <- Z.lxor_lor by exact Hland.
  rewrite <- Z.add_nocarry_lxor by exact Hland.
  lia.
Qed.

Lemma get_unaligned_be16_eq p off :
  get_unaligned_be16 p off = 256 * deref p off + deref p (off + 1).
Proof.
  unfold get_unaligned_be16, deref.
  pose proof (byte_val_range (p off)).
  pose proof (byte_val_range (p (off + 1))).
  rewrite shift_or_bytes by lia.
  apply cast_u16_id. unfold is_u16, U16_MAX. lia.
Qed.

Lemma get_unaligned_be16_range p off : is_u16 (get_unaligned_be16 p off).
Proof. apply cast_u16_range. Qed.

(** Reading back what [put_unaligned_be16] wrote. *)
Lemma get_put_unaligned_be16 v p off :
  is_u16 v -> get_unaligned_be16 (put_unaligned_be16 v p off) off = v.
Proof.
  unfold is_u16, U16_MAX. intros Hv.
  rewrite get_unaligned_be16_eq.
  unfold deref, put_unaligned_be16, poke.
  rewrite Z.eqb_refl.
  replace (off =? off + 1) with false by (symmetry; apply Z.eqb_neq; lia).
  rewrite Z.eqb_refl, !byte_val_of_Z.
  unfold cast_u8. rewrite Z.shiftr_div_pow2 by lia.
  change (2 ^ 8) with 256.
  rewrite (Z.mod_small (v / 256)).
  - pose proof (Z.div_mod v 256). lia.
  - split; [apply Z.div_pos; lia|].
    apply Z.div_lt_upper_bound; lia.
Qed.

(** A write of two bytes leaves a field that does not overlap it alone. *)
Lemma get_put_unaligned_be16_other v p off off' :
  off' + 1 < off \/ off + 1 < off' ->
  get_unaligned_be16 (put_unaligned_be16 v p off) off' =
  get_unaligned_be16 p off'.
Proof.
  intros Hd. unfold get_unaligned_be16, deref, put_unaligned_be16, poke.
  repeat match goal with
         | |- context [?a =? ?b] =>
             replace (a =? b) with false by (symmetry; apply Z.eqb_neq; lia)
         end.
  reflexivity.
Qed.

(** ** Stores into the arrays of the device state *)

Lemma store2 {A} (l : list A) a b :
  length l = 2%nat -> <[1%nat := b]> (<[0%nat := a]> l) = [a; b].
Proof. destruct l as [|? [|? [|? ?]]]; simpl; intros; congruence. Qed.

Lemma store4 {A} (l : list A) a b c d :
  length l = 4%nat ->
  <[3%nat := d]> (<[2%nat := c]> (<[1%nat := b]> (<[0%nat := a]> l))) =
  [a; b; c; d].
Proof.
  destruct l as [|? [|? [|? [|? [|? ?]]]]]; simpl; intros; congruence.
Qed.

Lemma store5 {A} (l : list A) a b c d e :
  length l = 5%nat ->
  <[4%nat := e]> (<[3%nat := d]> (<[2%nat := c]> (<[1%nat := b]>
    (<[0%nat := a]> l)))) = [a; b; c; d; e].
Proof.
  destruct l as [|? [|? [|? [|? [|? [|? ?]]]]]]; simpl; intros; congruence.
Qed.

(** ** The decoder in closed form *)

(** The scaled values stay inside [int], the type the products are
    computed in, and, voltages apart, inside the type of the field that
    receives them. *)
Lemma scaled_in_int p off :
  is_int (get_unaligned_be16 p off * 10) /\
  is_int (get_unaligned_be16 p off * 10000).
Proof.
  pose proof (get_unaligned_be16_range p off) as H.
  unfold is_u16, U16_MAX in H. unfold is_int, INT_MIN, INT_MAX. lia.
Qed.

Lemma scaled_temp p off :
  cast_s32 (get_unaligned_be16 p off * 10) = get_unaligned_be16 p off * 10.
Proof.
  pose proof (get_unaligned_be16_range p off) as H.
  unfold is_u16, U16_MAX in H.
  apply cast_s32_id. unfold is_int, INT_MIN, INT_MAX. lia.
Qed.

Lemma scaled_power p off :
  cast_u32 (get_unaligned_be16 p off * 10000) =
  get_unaligned_be16 p off * 10000.
Proof.
  pose proof (get_unaligned_be16_range p off) as H.
  unfold is_u16, U16_MAX in H.
  apply cast_u32_id. unfold is_u32. lia.
Qed.

Lemma scaled_flow p off :
  cast_u16 (get_unaligned_be16 p off ÷ 10) = get_unaligned_be16 p off / 10.
Proof.
  pose proof (get_unaligned_be16_range p off) as H.
  unfold is_u16, U16_MAX in H.
  rewrite Z.quot_div_nonneg by lia.
  apply cast_u16_id. unfold is_u16, U16_MAX.
  split; [apply Z.div_pos; lia|].
  apply Z.lt_succ_r. apply Z.div_lt_upper_bound; lia.
Qed.

Lemma unscaled_u16 p off :
  cast_u16 (get_unaligned_be16 p off) = get_unaligned_be16 p off.
Proof. apply cast_u16_id, get_unaligned_be16_range. Qed.

Lemma unscaled_u32 p off :
  cast_u32 (get_unaligned_be16 p off) = get_unaligned_be16 p off.
Proof.
  pose proof (get_unaligned_be16_range p off) as H.
  unfold is_u16, U16_MAX in H.
  apply cast_u32_id. unfold is_u32. lia.
Qed.

Lemma scaled_voltage_small p off :
  get_unaligned_be16 p off <= 6553 ->
  cast_u16 (get_unaligned_be16 p off * 10) = get_unaligned_be16 p off * 10.
Proof.
  intros Hs. pose proof (get_unaligned_be16_range p off) as H.
  unfold is_u16, U16_MAX in H.
  apply cast_u16_id. unfold is_u16, U16_MAX. lia.
Qed.

Lemma get_unaligned_be32_u32 p off :
  cast_u32 (get_unaligned_be32 p off) = get_unaligned_be32 p off.
Proof.
  unfold get_unaligned_be32, cast_u32. apply Z.mod_mod. lia.
Qed.

Lemma quadro_raw_event_decoded priv r data size jiffies :
  quadro_data_wf priv ->
  report_id r = QUADRO_STATUS_REPORT_ID ->
  quadro_raw_event priv r data size jiffies = (0, decoded priv data jiffies).
Proof.
  intros [Ht Hs Hp Hv Hc Hn] Hr.
  unfold quadro_raw_event, decoded. rewrite Hr, Z.eqb_refl. simpl negb.
  cbv iota. f_equal.
  rewrite (store2 _ _ _ Hn), (store4 _ _ _ _ _ Ht), (store5 _ _ _ _ _ _ Hs),
    (store4 _ _ _ _ _ Hp), (store5 _ _ _ _ _ _ Hv), (store4 _ _ _ _ _ Hc).
  rewrite !scaled_temp, !scaled_power, scaled_flow, !unscaled_u16,
    !unscaled_u32, get_unaligned_be32_u32.
  reflexivity.
Qed.

(** A status report keeps the array sizes, and so does creation. *)
Lemma decoded_wf priv data jiffies : quadro_data_wf (decoded priv data jiffies).
Proof. constructor; reflexivity. Qed.

Lemma quadro_probe_created_wf HZ hdev_ptr jiffies :
  quadro_data_wf (quadro_probe_created HZ hdev_ptr jiffies).
Proof. constructor; reflexivity. Qed.

Lemma with_updated_decoded priv data j1 j2 :
  with_updated j2 (decoded priv data j1) = decoded priv data j2.
Proof. reflexivity. Qed.

(** ** Jiffies arithmetic *)

Lemma cast_long_congr x y :
  x mod 2 ^ 64 = y mod 2 ^ 64 -> cast_long x = cast_long y.
Proof. unfold cast_long, BITS_PER_LONG. cbv zeta. intros ->. reflexivity. Qed.

Lemma cast_long_id x : - 2 ^ 63 <= x < 2 ^ 63 -> cast_long x = x.
Proof.
  intros H. unfold cast_long, BITS_PER_LONG. cbv zeta.
  change (2 ^ (64 - 1)) with (2 ^ 63).
  destruct (Z_lt_le_dec x 0) as [Hneg | Hpos].
  - replace (x mod 2 ^ 64) with (x + 2 ^ 64)
      by (apply Z.mod_unique with (q := -1); lia).
    destruct (Z.ltb_spec (x + 2 ^ 64) (2 ^ 63)); lia.
  - rewrite Z.mod_small by lia.
    destruct (Z.ltb_spec x (2 ^ 63)); lia.
Qed.

(** [d] ticks after the instant [x], for a [d] of less than half the
    range of the counter, [time_after] holds exactly when [d] is
    positive; the counter may wrap in between. *)
Lemma time_after_shift x d :
  - 2 ^ 63 < d <= 2 ^ 63 ->
  time_after (cast_ulong (x + d)) (cast_ulong x) = (0 <? d).
Proof.
  intros Hd. unfold time_after.
  rewrite (cast_long_congr _ (- d)).
  - rewrite cast_long_id by lia.
    destruct (Z.ltb_spec (- d) 0), (Z.ltb_spec 0 d); lia.
  - unfold cast_ulong, BITS_PER_LONG.
    rewrite Zminus_mod_idemp_l, Zminus_mod_idemp_r.
    f_equal. lia.
Qed.

Lemma cast_ulong_add_l x y : cast_ulong (cast_ulong x + y) = cast_ulong (x + y).
Proof. unfold cast_ulong. apply Zplus_mod_idemp_l. Qed.

(** The deadline [quadro_read] compares with, [d] ticks after a report
    taken at [t]. *)
Lemma deadline_after HZ t d :
  - 2 ^ 63 < d <= 2 ^ 63 ->
  time_after (cast_ulong (t + QUADRO_STATUS_UPDATE_INTERVAL HZ + d))
    (cast_ulong (t + QUADRO_STATUS_UPDATE_INTERVAL HZ)) = (0 <? d).
Proof. apply time_after_shift. Qed.

(** The deadline of a freshly created state is the instant of creation. *)
Lemma deadline_created HZ hdev_ptr jiffies d :
  - 2 ^ 63 < d <= 2 ^ 63 ->
  time_after (cast_ulong (jiffies + d))
    (cast_ulong (updated (quadro_probe_created HZ hdev_ptr jiffies)
                 + QUADRO_STATUS_UPDATE_INTERVAL HZ)) = (0 <? d).
Proof.
  intros Hd. simpl updated. rewrite cast_ulong_add_l.
  replace (jiffies - QUADRO_STATUS_UPDATE_INTERVAL HZ
           + QUADRO_STATUS_UPDATE_INTERVAL HZ) with jiffies by lia.
  apply time_after_shift, Hd.
Qed.

(** ** The channel table *)

Lemma channel_count_temp : channel_count hwmon_temp = 4.
Proof. reflexivity. Qed.
Lemma channel_count_fan : channel_count hwmon_fan = 5.
Proof. reflexivity. Qed.
Lemma channel_count_power : channel_count hwmon_power = 4.
Proof. reflexivity. Qed.
Lemma channel_count_in : channel_count hwmon_in = 5.
Proof. reflexivity. Qed.
Lemma channel_count_curr : channel_count hwmon_curr = 4.
Proof. reflexivity. Qed.

Lemma valid_channelb_spec type channel :
  valid_channelb type channel = true <-> valid_channel type channel.
Proof.
  unfold valid_channelb, valid_channel.
  rewrite andb_true_iff, Z.leb_le, Z.ltb_lt. reflexivity.
Qed.

(** Replaces [channel_count t], for a concrete type [t], by its value. *)
Ltac count_channels :=
  repeat match goal with
    | H : context [channel_count ?t] |- _ =>
        let n := eval vm_compute in (channel_count t) in
        change (channel_count t) with n in H
    | |- context [channel_count ?t] =>
        let n := eval vm_compute in (channel_count t) in
        change (channel_count t) with n
    end.

(** Reading an array inside its bounds, and outside. *)
Lemma array_read_in {A} (a : list A) i :
  0 <= i < Z.of_nat (length a) ->
  exists v, a !! Z.to_nat i = Some v /\ array_read a i = Ok v.
Proof.
  intros Hi. unfold array_read.
  destruct (Z.ltb_spec i 0); [lia|].
  destruct (a !! Z.to_nat i) as [v|] eqn:E; [eauto|].
  apply lookup_ge_None in E. lia.
Qed.

Lemma array_read_out {A} (a : list A) i :
  ~ 0 <= i < Z.of_nat (length a) -> array_read a i = OutOfBounds.
Proof.
  intros Hi. unfold array_read.
  destruct (Z.ltb_spec i 0); [reflexivity|].
  destruct (a !! Z.to_nat i) as [v|] eqn:E; [|reflexivity].
  apply lookup_lt_Some in E. lia.
Qed.

(** ** [quadro_read] case by case *)

Lemma quadro_read_stale HZ priv now type attr channel :
  stale HZ priv now = true ->
  quadro_read HZ priv now type attr channel = Error (- ENODATA).
Proof. unfold stale, quadro_read. intros ->. reflexivity. Qed.

Lemma quadro_read_fresh_valid HZ priv now type attr channel :
  stale HZ priv now = false ->
  quadro_data_wf priv ->
  valid_channel type channel ->
  exists v, stored_value priv type (Z.to_nat channel) = Some v /\
            quadro_read HZ priv now type attr channel = Ok v.
Proof.
  unfold stale, quadro_read, valid_channel.
  intros -> [Ht Hs Hp Hv Hc _] Hch.
  destruct type; count_channels; try lia; cbn [stored_value];
    apply array_read_in; lia.
Qed.

Lemma quadro_read_fresh_unsupported HZ priv now type attr channel :
  stale HZ priv now = false ->
  channel_count type = 0 ->
  quadro_read HZ priv now type attr channel = Error (- EOPNOTSUPP).
Proof.
  unfold stale, quadro_read. intros -> Hn.
  destruct type; try reflexivity; count_channels; discriminate Hn.
Qed.

Lemma quadro_read_fresh_out HZ priv now type attr channel :
  stale HZ priv now = false ->
  quadro_data_wf priv ->
  0 < channel_count type ->
  ~ valid_channel type channel ->
  quadro_read HZ priv now type attr channel = OutOfBounds.
Proof.
  unfold stale, quadro_read, valid_channel.
  intros -> [Ht Hs Hp Hv Hc _] Hn Hch.
  destruct type; count_channels; try lia; apply array_read_out; lia.
Qed.

(** ** Staleness *)

(** C2: a read [QUADRO_STATUS_UPDATE_INTERVAL] = 2 * HZ ticks after a
    status report was decoded at [T] returns the stored value of any
    registered channel, and a read one tick later returns [-ENODATA]. *)
Theorem staleness_boundary HZ priv r data size T type attr channel :
  quadro_data_wf priv ->
  report_id r = QUADRO_STATUS_REPORT_ID ->
  valid_channel type channel ->
  let st := (quadro_raw_event priv r data size T).2 in
  let window := QUADRO_STATUS_UPDATE_INTERVAL HZ in
  window = 2 * HZ /\
  (exists v, stored_value st type (Z.to_nat channel) = Some v /\
     quadro_read HZ st (cast_ulong (T + window)) type attr channel = Ok v) /\
  quadro_read HZ st (cast_ulong (T + window + 1)) type attr channel
  = Error (- ENODATA).
Proof.
  intros Hwf Hr Hch st window. subst st window.
  rewrite (quadro_raw_event_decoded _ _ _ _ _ Hwf Hr). cbn [snd].
  split; [reflexivity|]. split.
  - apply quadro_read_fresh_valid; [|apply decoded_wf|exact Hch].
    unfold stale. cbn [updated decoded].
    replace (T + QUADRO_STATUS_UPDATE_INTERVAL HZ)
      with (T + QUADRO_STATUS_UPDATE_INTERVAL HZ + 0) at 1 by lia.
    rewrite deadline_after by lia. reflexivity.
  - apply quadro_read_stale. unfold stale. cbn [updated decoded].
    rewrite deadline_after by lia. reflexivity.
Qed.

Lemma staleness_boundary_witness :
  let priv := quadro_probe_created 250 0 0 in
  let data := put_unaligned_be16 250 zeroed QUADRO_TEMP1 in
  let st := (quadro_raw_event priv status_report data 163 1000).2 in
  quadro_data_wf priv /\
  valid_channel hwmon_temp 0 /\
  (exists v, stored_value st hwmon_temp 0 = Some v /\
             quadro_read 250 st (cast_ulong (1000 + 500)) hwmon_temp 0 0 = Ok v) /\
  quadro_read 250 st (cast_ulong (1000 + 500 + 1)) hwmon_temp 0 0
  = Error (- ENODATA).
Proof.
  intros priv data st.
  assert (Hwf : quadro_data_wf priv) by (constructor; reflexivity).
  assert (Hch : valid_channel hwmon_temp 0) by (unfold valid_channel; count_channels; lia).
  split; [exact Hwf|]. split; [exact Hch|].
  exact (proj2 (staleness_boundary 250 priv status_report data 163 1000
                  hwmon_temp 0 0 Hwf eq_refl Hch)).
Defined.

(** ** Reports of another kind *)

(** C4: a report whose id is not [QUADRO_STATUS_REPORT_ID] makes
    [quadro_raw_event] return 0 and leave the device state, every field
    of it, as it was. *)
Theorem raw_event_other_report_noop priv r data size jiffies :
  report_id r <> QUADRO_STATUS_REPORT_ID ->
  quadro_raw_event priv r data size jiffies = (0, priv).
Proof.
  intros Hr. unfold quadro_raw_event.
  destruct (Z.eqb_spec (report_id r) QUADRO_STATUS_REPORT_ID) as [E|_].
  - contradiction.
  - reflexivity.
Qed.

Lemma raw_event_other_report_noop_witness :
  report_id {| report_id := 2 |} <> QUADRO_STATUS_REPORT_ID /\
  quadro_raw_event (quadro_probe_created 250 0 0) {| report_id := 2 |}
    (put_unaligned_be16 250 zeroed QUADRO_TEMP1) 163 1000
  = (0, quadro_probe_created 250 0 0).
Proof.
  assert (H : report_id {| report_id := 2 |} <> QUADRO_STATUS_REPORT_ID)
    by discriminate.
  split; [exact H|].
  exact (raw_event_other_report_noop _ _ _ _ _ H).
Defined.

(** ** Decoding the same report again *)

(** C8: decoding the same status report a second time, at a later
    instant, changes nothing but the timestamp: the second state is the
    first with [updated] replaced, and the two timestamps differ. *)
Theorem raw_event_twice priv r data size1 size2 j1 j2 :
  quadro_data_wf priv ->
  report_id r = QUADRO_STATUS_REPORT_ID ->
  j1 < j2 ->
  let st1 := (quadro_raw_event priv r data size1 j1).2 in
  let st2 := (quadro_raw_event st1 r data size2 j2).2 in
  st2 = with_updated j2 st1 /\
  updated st1 = j1 /\ updated st2 = j2 /\ updated st1 <> updated st2 /\
  temp_input st2 = temp_input st1 /\
  speed_input st2 = speed_input st1 /\
  power_input st2 = power_input st1 /\
  voltage_input st2 = voltage_input st1 /\
  current_input st2 = current_input st1 /\
  serial_number st2 = serial_number st1 /\
  firmware_version st2 = firmware_version st1 /\
  power_cycles st2 = power_cycles st1.
Proof.
  intros Hwf Hr Hj st1 st2. subst st1 st2.
  rewrite (quadro_raw_event_decoded _ _ _ _ _ Hwf Hr). cbn [snd].
  rewrite (quadro_raw_event_decoded _ _ _ _ _ (decoded_wf _ _ _) Hr).
  cbn [snd]. rewrite with_updated_decoded.
  cbn [decoded updated temp_input speed_input power_input voltage_input
       current_input serial_number firmware_version power_cycles
       hdev hwmon_dev debugfs].
  repeat split; try reflexivity. lia.
Qed.

Lemma raw_event_twice_witness :
  let priv := quadro_probe_created 250 0 0 in
  let data := put_unaligned_be16 250 zeroed QUADRO_TEMP1 in
  let st1 := (quadro_raw_event priv status_report data 163 1000).2 in
  let st2 := (quadro_raw_event st1 status_report data 163 1250).2 in
  quadro_data_wf priv /\ 1000 < 1250 /\
  st2 = with_updated 1250 st1 /\ updated st1 <> updated st2.
Proof.
  intros priv data st1 st2.
  assert (Hwf : quadro_data_wf priv) by (constructor; reflexivity).
  assert (Hlt : 1000 < 1250) by reflexivity.
  split; [exact Hwf|]. split; [exact Hlt|].
  destruct (raw_event_twice priv status_report data 163 163 1000 1250
              Hwf eq_refl Hlt) as (H1 & _ & _ & H2 & _).
  split; [exact H1 | exact H2].
Defined.

(** ** The flow speed *)

(** C9: the flow speed a status report leaves in [speed_input[0]] is the
    floor of a tenth of the big-endian 16-bit number at offset 110, and
    it is what a read of speed channel 0 returns while the data is
    fresh. *)
Theorem flow_speed_truncating_division priv r data size jiffies :
  quadro_data_wf priv ->
  report_id r = QUADRO_STATUS_REPORT_ID ->
  let st := (quadro_raw_event priv r data size jiffies).2 in
  let raw := 256 * deref data 110 + deref data 111 in
  speed_input st !! 0%nat = Some (raw / 10) /\
  (forall HZ now attr, stale HZ st now = false ->
     quadro_read HZ st now hwmon_fan attr 0 = Ok (raw / 10)) /\
  10 * (raw / 10) <= raw < 10 * (raw / 10) + 10.
Proof.
  intros Hwf Hr st raw. subst st raw.
  rewrite (quadro_raw_event_decoded _ _ _ _ _ Hwf Hr). cbn [snd].
  split; [|split].
  - cbn [decoded speed_input]. rewrite get_unaligned_be16_eq. reflexivity.
  - intros HZ now attr Hfresh. unfold quadro_read.
    fold (stale HZ (decoded priv data jiffies) now). rewrite Hfresh.
    cbn [decoded speed_input]. rewrite get_unaligned_be16_eq. reflexivity.
  - pose proof (Z.div_mod (256 * deref data 110 + deref data 111) 10).
    pose proof (Z.mod_pos_bound (256 * deref data 110 + deref data 111) 10).
    lia.
Qed.

Lemma flow_speed_truncating_division_witness :
  let priv := quadro_probe_created 250 0 0 in
  let data := put_unaligned_be16 125 zeroed QUADRO_FLOW_SPEED in
  let st := (quadro_raw_event priv status_report data 163 1000).2 in
  quadro_data_wf priv /\
  256 * deref data 110 + deref data 111 = 125 /\
  speed_input st !! 0%nat = Some 12.
Proof.
  intros priv data st.
  assert (Hwf : quadro_data_wf priv) by (constructor; reflexivity).
  split; [exact Hwf|]. split; [reflexivity|].
  exact (proj1 (flow_speed_truncating_division priv status_report data 163
                  1000 Hwf eq_refl)).
Defined.

(** ** Short reports *)

(** C5, as stated, fails: a status report of 10 bytes is decoded like
    any other.  The return value is 0, the timestamp and the sensor
    values are overwritten, and the temperature comes from offsets 52 and
    53, past the end of the report: two memories equal on the 10 bytes
    of the report give different temperatures. *)
Lemma raw_event_short_report_counterexample :
  let priv := quadro_probe_created 250 0 0 in
  let data := zeroed in
  let data' := put_unaligned_be16 250 zeroed QUADRO_TEMP1 in
  let out := quadro_raw_event priv status_report data 10 1000 in
  let out' := quadro_raw_event priv status_report data' 10 1000 in
  report_id status_report = QUADRO_STATUS_REPORT_ID /\
  10 < 163 /\
  out.1 = 0 /\
  out.2 <> priv /\
  updated priv = 2 ^ 64 - 500 /\ updated out.2 = 1000 /\
  (forall i, 0 <= i < 10 -> data i = data' i) /\
  temp_input out.2 !! 0%nat = Some 0 /\
  temp_input out'.2 !! 0%nat = Some 2500.
Proof.
  intros priv data data' out out'.
  repeat split; try reflexivity.
  - intros E. apply (f_equal updated) in E. vm_compute in E. discriminate E.
  - intros i Hi. subst data data'.
    unfold put_unaligned_be16, poke, QUADRO_TEMP1.
    destruct (Z.eqb_spec i (52 + 1)); [lia|].
    destruct (Z.eqb_spec i 52); [lia|]. reflexivity.
Qed.

(** C5, amended: for a status report [quadro_raw_event] returns 0
    whatever the size, so no decode error is ever signalled; it sets the
    timestamp to the current jiffies; the outcome is the same for every
    value of [size]; and the state holds the values found at the fixed
    offsets from the data pointer. *)
Theorem raw_event_ignores_size priv r data size jiffies :
  report_id r = QUADRO_STATUS_REPORT_ID ->
  let out := quadro_raw_event priv r data size jiffies in
  out.1 = 0 /\
  updated out.2 = jiffies /\
  (forall size', quadro_raw_event priv r data size' jiffies = out) /\
  (quadro_data_wf priv -> out.2 = decoded priv data jiffies).
Proof.
  intros Hr out. subst out. repeat split.
  - unfold quadro_raw_event. rewrite Hr, Z.eqb_refl. reflexivity.
  - unfold quadro_raw_event. rewrite Hr, Z.eqb_refl. reflexivity.
  - intros Hwf. rewrite (quadro_raw_event_decoded _ _ _ _ _ Hwf Hr).
    reflexivity.
Qed.

Lemma raw_event_ignores_size_witness :
  let priv := quadro_probe_created 250 0 0 in
  let out := quadro_raw_event priv status_report zeroed 10 1000 in
  report_id status_report = QUADRO_STATUS_REPORT_ID /\
  out.1 = 0 /\
  updated out.2 = 1000 /\
  quadro_raw_event priv status_report zeroed 163 1000 = out.
Proof.
  intros priv out.
  destruct (raw_event_ignores_size priv status_report zeroed 10 1000 eq_refl)
    as (H1 & H2 & H3 & _).
  split; [reflexivity|]. split; [exact H1|]. split; [exact H2|].
  exact (H3 163).
Defined.

(** ** Channels outside the table *)

(** C3, as stated, fails: temperature channel 4 is outside the table,
    yet a read of it on stale data returns [-ENODATA], the staleness
    outcome, and a read of it on fresh data indexes [temp_input] outside
    its bounds and returns no error. *)
Lemma quadro_read_invalid_channel_counterexample :
  let priv := quadro_probe_created 250 0 1000 in
  ~ valid_channel hwmon_temp 4 /\
  stale 250 priv 1001 = true /\
  quadro_read 250 priv 1001 hwmon_temp 0 4 = Error (- ENODATA) /\
  ~ ChannelNotFound (quadro_read 250 priv 1001 hwmon_temp 0 4) /\
  stale 250 priv 1000 = false /\
  quadro_read 250 priv 1000 hwmon_temp 0 4 = OutOfBounds /\
  ~ ChannelNotFound (quadro_read 250 priv 1000 hwmon_temp 0 4).
Proof.
  intros priv. repeat split; try reflexivity.
  - unfold valid_channel. count_channels. lia.
  - intros (e & E & Hne). vm_compute in E.
    injection E as <-. apply Hne. reflexivity.
  - intros (e & E & _). vm_compute in E. discriminate E.
Qed.

(** C3, amended: [quadro_read] tests staleness before it looks at the
    type or the channel.  On stale data it returns [-ENODATA] for every
    type and channel, in the table or not.  On fresh data it returns the
    stored value of a channel of the table (4 temperatures, 5 speeds,
    4 powers, 5 voltages, 4 currents) and [-EOPNOTSUPP] for a type that
    has no channels; it does not compare the channel with the size of
    the array, so a channel outside the table yields no error. *)
Theorem quadro_read_checks_staleness_first HZ priv now type attr channel :
  quadro_data_wf priv ->
  (stale HZ priv now = true ->
     quadro_read HZ priv now type attr channel = Error (- ENODATA)) /\
  (stale HZ priv now = false ->
     (valid_channel type channel ->
        exists v, stored_value priv type (Z.to_nat channel) = Some v /\
                  quadro_read HZ priv now type attr channel = Ok v) /\
     (channel_count type = 0 ->
        quadro_read HZ priv now type attr channel = Error (- EOPNOTSUPP)) /\
     (0 < channel_count type -> ~ valid_channel type channel ->
        quadro_read HZ priv now type attr channel = OutOfBounds)) /\
  channel_count hwmon_temp = 4 /\ channel_count hwmon_fan = 5 /\
  channel_count hwmon_power = 4 /\ channel_count hwmon_in = 5 /\
  channel_count hwmon_curr = 4.
Proof.
  intros Hwf. split; [|split].
  - apply quadro_read_stale.
  - intros Hfresh. split; [|split].
    + apply quadro_read_fresh_valid; assumption.
    + apply quadro_read_fresh_unsupported; assumption.
    + apply quadro_read_fresh_out; assumption.
  - repeat split.
Qed.

Lemma quadro_read_checks_staleness_first_witness :
  let priv := quadro_probe_created 250 0 1000 in
  quadro_data_wf priv /\
  stale 250 priv 1001 = true /\
  quadro_read 250 priv 1001 hwmon_temp 0 4 = Error (- ENODATA) /\
  stale 250 priv 1000 = false /\ valid_channel hwmon_fan 4 /\
  exists v, stored_value priv hwmon_fan 4 = Some v /\
            quadro_read 250 priv 1000 hwmon_fan 0 4 = Ok v.
Proof.
  intros priv.
  assert (Hwf : quadro_data_wf priv) by (constructor; reflexivity).
  assert (Hch : valid_channel hwmon_fan 4)
    by (unfold valid_channel; count_channels; lia).
  split; [exact Hwf|]. split; [reflexivity|]. split.
  - exact (proj1 (quadro_read_checks_staleness_first 250 priv 1001
                    hwmon_temp 0 4 Hwf) eq_refl).
  - split; [reflexivity|]. split; [exact Hch|].
    exact (proj1 (proj1 (proj2 (quadro_read_checks_staleness_first 250 priv
                                  1000 hwmon_fan 0 4 Hwf)) eq_refl) Hch).
Defined.

(** ** Labels *)

(** C7, as stated, fails in its second half: [quadro_read_string] for
    temperature channel 4, which is outside the table, indexes
    [label_temps] past its last element and returns no error. *)
Lemma quadro_read_string_invalid_channel_counterexample :
  ~ valid_channel hwmon_temp 4 /\
  quadro_read_string kzalloc_quadro_data hwmon_temp 0 4 = OutOfBounds /\
  ~ ChannelNotFound (quadro_read_string kzalloc_quadro_data hwmon_temp 0 4).
Proof.
  repeat split.
  - unfold valid_channel. count_channels. lia.
  - intros (e & E & _). discriminate E.
Qed.

(** C7, amended: for a channel of the table (4 temperatures, 5 speeds,
    4 powers, 5 voltages, 4 currents) [quadro_read_string] returns a
    non-empty label, the same whatever the device state and the
    attribute; for a type without channels it returns [-EOPNOTSUPP]; it
    does not compare the channel with the size of the label array, so a
    channel outside the table yields no error. *)
Theorem quadro_read_string_channels type channel :
  (valid_channel type channel ->
     exists s, s <> EmptyString /\
       forall priv attr, quadro_read_string priv type attr channel = Ok s) /\
  (channel_count type = 0 ->
     forall priv attr,
       quadro_read_string priv type attr channel = Error (- EOPNOTSUPP)) /\
  (0 < channel_count type -> ~ valid_channel type channel ->
     forall priv attr, quadro_read_string priv type attr channel = OutOfBounds).
Proof.
  unfold valid_channel, quadro_read_string. split; [|split].
  - intros Hch.
    destruct type; count_channels; try lia;
      (assert (Hc : channel = 0 \/ channel = 1 \/ channel = 2 \/
                    channel = 3 \/ channel = 4) by lia;
       destruct Hc as [-> | [-> | [-> | [-> | ->]]]]; try lia;
       (eexists; split; [|intros; reflexivity]); discriminate).
  - intros Hn priv attr.
    destruct type; try reflexivity; count_channels; discriminate Hn.
  - intros Hn Hch priv attr.
    destruct type; count_channels; try lia; apply array_read_out;
      cbn [length label_temps label_speeds label_power label_voltages
           label_current]; lia.
Qed.

Lemma quadro_read_string_channels_witness :
  valid_channel hwmon_in 0 /\
  exists s, s <> EmptyString /\
    forall priv attr, quadro_read_string priv hwmon_in attr 0 = Ok s.
Proof.
  assert (Hch : valid_channel hwmon_in 0)
    by (unfold valid_channel; count_channels; lia).
  split; [exact Hch|].
  exact (proj1 (quadro_read_string_channels hwmon_in 0) Hch).
Defined.

(** ** The state [quadro_probe] creates *)

Lemma quadro_probe_state HZ env hdev_ptr jiffies ret priv :
  quadro_probe HZ env hdev_ptr jiffies = (ret, Some priv) ->
  exists ptr dir,
    priv = set_hwmon_dev ptr dir (quadro_probe_created HZ hdev_ptr jiffies).
Proof.
  unfold quadro_probe. intros H.
  repeat match type of H with
         | (if ?c then _ else _) = _ => destruct c
         end;
    inversion H; subst; solve [eauto | exists 0, 0; reflexivity].
Qed.

Lemma stale_set_hwmon_dev HZ ptr dir priv now :
  stale HZ (set_hwmon_dev ptr dir priv) now = stale HZ priv now.
Proof. reflexivity. Qed.

Lemma quadro_read_set_hwmon_dev HZ ptr dir priv now type attr channel :
  quadro_read HZ (set_hwmon_dev ptr dir priv) now type attr channel =
  quadro_read HZ priv now type attr channel.
Proof. reflexivity. Qed.

Lemma stale_created HZ hdev_ptr jiffies d :
  - 2 ^ 63 < d <= 2 ^ 63 ->
  stale HZ (quadro_probe_created HZ hdev_ptr jiffies)
    (cast_ulong (jiffies + d)) = (0 <? d).
Proof. apply deadline_created. Qed.

Lemma stored_value_created HZ hdev_ptr jiffies type channel v :
  stored_value (quadro_probe_created HZ hdev_ptr jiffies) type channel
  = Some v -> v = 0.
Proof.
  destruct type; cbn; try discriminate;
    do 5 (destruct channel as [|channel]; cbn; try congruence);
    destruct channel; discriminate.
Qed.

(** C6 fails on the code: at the instant [quadro_probe] created the
    state, the deadline [updated + QUADRO_STATUS_UPDATE_INTERVAL] is that
    very instant, which [time_after] does not count as past, so a read of
    a channel of the table returns the zero of the fresh allocation.
    From the next tick on the read returns [-ENODATA]. *)
Theorem read_at_creation_returns_zero
    HZ env hdev_ptr jiffies ret priv type attr channel :
  is_ulong jiffies ->
  quadro_probe HZ env hdev_ptr jiffies = (ret, Some priv) ->
  valid_channel type channel ->
  stale HZ priv jiffies = false /\
  quadro_read HZ priv jiffies type attr channel = Ok 0 /\
  (forall d, 0 < d <= 2 ^ 63 ->
     quadro_read HZ priv (cast_ulong (jiffies + d)) type attr channel
     = Error (- ENODATA)).
Proof.
  intros Hj Hp Hch.
  destruct (quadro_probe_state _ _ _ _ _ _ Hp) as (ptr & dir & ->).
  assert (Hfresh : stale HZ (quadro_probe_created HZ hdev_ptr jiffies) jiffies
                   = false).
  { rewrite <- (cast_ulong_id jiffies Hj) at 2.
    replace jiffies with (jiffies + 0) at 2 by lia.
    rewrite stale_created by lia. reflexivity. }
  rewrite stale_set_hwmon_dev. split; [exact Hfresh|]. split.
  - rewrite quadro_read_set_hwmon_dev.
    destruct (quadro_read_fresh_valid HZ _ jiffies type attr channel Hfresh
                (quadro_probe_created_wf _ _ _) Hch) as (v & Hv & ->).
    apply stored_value_created in Hv. congruence.
  - intros d Hd. rewrite quadro_read_set_hwmon_dev.
    apply quadro_read_stale. rewrite stale_created by lia.
    destruct (Z.ltb_spec 0 d); [reflexivity | lia].
Qed.

Lemma read_at_creation_returns_zero_witness :
  let env := {| kzalloc_ok := true; hid_parse_ret := 0;
                hid_hw_start_ret := 0; hid_hw_open_ret := 0;
                hwmon_register_ret := 4096; debugfs_dir := 8192 |} in
  let priv := set_hwmon_dev 4096 8192 (quadro_probe_created 250 64 1000) in
  is_ulong 1000 /\
  quadro_probe 250 env 64 1000 = (0, Some priv) /\
  valid_channel hwmon_temp 0 /\
  quadro_read 250 priv 1000 hwmon_temp 0 0 = Ok 0.
Proof.
  intros env priv.
  assert (Hj : is_ulong 1000) by (unfold is_ulong, ULONG_MAX, BITS_PER_LONG; lia).
  assert (Hch : valid_channel hwmon_temp 0)
    by (unfold valid_channel; count_channels; lia).
  split; [exact Hj|]. split; [reflexivity|]. split; [exact Hch|].
  exact (proj1 (proj2 (read_at_creation_returns_zero 250 env 64 1000 0 priv
                         hwmon_temp 0 0 Hj eq_refl Hch))).
Defined.

(** ** The field table *)

(** What a status report leaves in the sensor arrays, in terms of the
    big-endian 16-bit numbers of the report.  Temperatures, speeds,
    powers and currents are the numbers of the table with their scale;
    a voltage is ten times its number reduced to 16 bits, the width of
    [voltage_input]. *)
Lemma decode_field_table priv r data size jiffies :
  quadro_data_wf priv ->
  report_id r = QUADRO_STATUS_REPORT_ID ->
  let st := (quadro_raw_event priv r data size jiffies).2 in
  let raw off := 256 * deref data off + deref data (off + 1) in
  temp_input st = [raw 52 * 10; raw 54 * 10; raw 56 * 10; raw 58 * 10] /\
  speed_input st = [raw 110 / 10; raw 120; raw 133; raw 146; raw 159] /\
  power_input st =
    [raw 118 * 10000; raw 131 * 10000; raw 144 * 10000; raw 157 * 10000] /\
  voltage_input st =
    [(raw 108 * 10) mod 65536; (raw 114 * 10) mod 65536;
     (raw 127 * 10) mod 65536; (raw 140 * 10) mod 65536;
     (raw 153 * 10) mod 65536] /\
  current_input st = [raw 116; raw 129; raw 142; raw 155].
Proof.
  intros Hwf Hr st raw. subst st raw.
  rewrite (quadro_raw_event_decoded _ _ _ _ _ Hwf Hr).
  cbn [snd decoded temp_input speed_input power_input voltage_input
       current_input fmap list_fmap].
  rewrite <- !get_unaligned_be16_eq. repeat split.
Qed.

(** A voltage number of at most 6553 is stored times 10. *)
Lemma decode_voltage_small raw :
  0 <= raw <= 6553 -> (raw * 10) mod 65536 = raw * 10.
Proof. intros H. apply Z.mod_small. lia. Qed.

(** The three values of the round-trip example: a temperature number of
    250, a flow number of 120 and a fan power number of 15. *)
Lemma decode_examples :
  let data :=
    put_unaligned_be16 15 (put_unaligned_be16 120
      (put_unaligned_be16 250 zeroed QUADRO_TEMP1) QUADRO_FLOW_SPEED)
      QUADRO_FAN1_POWER in
  let st := (quadro_raw_event (quadro_probe_created 250 0 0) status_report
               data 163 1000).2 in
  temp_input st !! 0%nat = Some 2500 /\
  speed_input st !! 0%nat = Some 12 /\
  power_input st !! 0%nat = Some 150000.
Proof. repeat split. Qed.

(** C1 fails on the code for the voltages: a supply voltage number of
    6554 at offset 108 is stored as 4, not as 65540, because
    [voltage_input] is an array of [u16]; a read of voltage channel 0
    returns that 4. *)
Theorem voltage_scaling_overflows_u16 :
  let data := put_unaligned_be16 6554 zeroed QUADRO_VOLTAGE in
  let st := (quadro_raw_event (quadro_probe_created 250 0 0) status_report
               data 163 1000).2 in
  report_id status_report = QUADRO_STATUS_REPORT_ID /\
  get_unaligned_be16 data QUADRO_VOLTAGE = 6554 /\
  voltage_input st !! 0%nat = Some 4 /\
  quadro_read 250 st 1000 hwmon_in 0 0 = Ok 4 /\
  4 <> 6554 * 10.
Proof. repeat split. discriminate. Qed.

(** ** Ranges of the decoded values *)

(** Temperatures and powers after a status report: each temperature is
    a multiple of 10 between 0 and 655350, each power a multiple of
    10000 between 0 and 655350000; each voltage fits 16 bits. *)
Lemma decoded_ranges priv r data size jiffies :
  quadro_data_wf priv ->
  report_id r = QUADRO_STATUS_REPORT_ID ->
  let st := (quadro_raw_event priv r data size jiffies).2 in
  Forall (fun t => 0 <= t <= 655350 /\ t mod 10 = 0) (temp_input st) /\
  Forall (fun p => 0 <= p <= 655350000 /\ p mod 10000 = 0) (power_input st) /\
  Forall (fun v => 0 <= v <= 65535) (voltage_input st).
Proof.
  intros Hwf Hr st. subst st.
  rewrite (quadro_raw_event_decoded _ _ _ _ _ Hwf Hr).
  cbn [snd decoded temp_input power_input voltage_input fmap list_fmap].
  repeat match goal with
         | |- Forall _ _ => constructor
         | |- _ /\ _ => split
         end;
    try (apply Z.mod_mul; lia);
    match goal with
    | |- context [cast_u16 ?x] =>
        pose proof (cast_u16_range x) as Hx; unfold is_u16, U16_MAX in Hx; lia
    | |- context [get_unaligned_be16 ?p ?off] =>
        pose proof (get_unaligned_be16_range p off) as Hx;
        unfold is_u16, U16_MAX in Hx; lia
    end.
Qed.

(** C10 fails on the code for the voltages: a fan voltage number of
    65535 at offset 114 is stored as 65526, which is not a multiple
    of 10. *)
Theorem decoded_voltage_not_multiple_of_10 :
  let data := put_unaligned_be16 65535 zeroed QUADRO_FAN1_VOLTAGE in
  let st := (quadro_raw_event (quadro_probe_created 250 0 0) status_report
               data 163 1000).2 in
  get_unaligned_be16 data QUADRO_FAN1_VOLTAGE = 65535 /\
  voltage_input st !! 1%nat = Some 65526 /\
  65526 mod 10 = 6.
Proof. repeat split. Qed.

(** * Further properties of the driver *)

(** ** The identity fields *)

Lemma lor_disjoint x y k :
  0 <= k -> x mod 2 ^ k = 0 -> 0 <= y < 2 ^ k -> Z.lor x y = x + y.
Proof.
  intros Hk Hx Hy.
  assert (Hland : Z.land x y = 0).
  { apply Z.bits_inj'. intros n Hn.
    rewrite Z.land_spec, Z.bits_0.
    destruct (Z_lt_le_dec n k).
    - rewrite (Z.div_mod x (2 ^ k)) by lia.
      rewrite Hx, Z.add_0_r, Z.mul_comm.
      rewrite Z.mul_pow2_bits_low by lia. reflexivity.
    - replace (Z.testbit y n) with false; [apply andb_false_r|].
      symmetry. destruct (Z.eq_dec y 0) as [->|]; [apply Z.bits_0|].
      apply Z.bits_above_log2; [lia|].
      apply Z.log2_lt_pow2; [lia|].
      apply Z.lt_le_trans with (2 ^ k); [lia|].
      apply Z.pow_le_mono_r; lia. }
  rewrite <- Z.lxor_lor by exact Hland.
  rewrite <- Z.add_nocarry_lxor by exact Hland.
  reflexivity.
Qed.

Lemma get_unaligned_be32_eq p off :
  get_unaligned_be32 p off =
  2 ^ 24 * deref p off + 2 ^ 16 * deref p (off + 1)
  + 2 ^ 8 * deref p (off + 2) + deref p (off + 3).
Proof.
  unfold get_unaligned_be32, deref.
  pose proof (byte_val_range (p off)) as H0.
  pose proof (byte_val_range (p (off + 1))) as H1.
  pose proof (byte_val_range (p (off + 2))) as H2.
  pose proof (byte_val_range (p (off + 3))) as H3.
  set (a := byte_val (p off)) in *.
  set (b := byte_val (p (off + 1))) in *.
  set (c := byte_val (p (off + 2))) in *.
  set (d := byte_val (p (off + 3))) in *.
  rewrite !Z.shiftl_mul_pow2 by lia.
  rewrite (lor_disjoint (a * 2 ^ 24) (b * 2 ^ 16) 24);
    [|lia|apply Z.mod_mul; lia|lia].
  rewrite (lor_disjoint (a * 2 ^ 24 + b * 2 ^ 16) (c * 2 ^ 8) 16);
    [|lia| |lia].
  2: { replace (a * 2 ^ 24 + b * 2 ^ 16) with ((a * 2 ^ 8 + b) * 2 ^ 16) by lia.
       apply Z.mod_mul. lia. }
  rewrite (lor_disjoint _ d 8); [|lia| |lia].
  2: { replace (a * 2 ^ 24 + b * 2 ^ 16 + c * 2 ^ 8)
         with ((a * 2 ^ 16 + b * 2 ^ 8 + c) * 2 ^ 8) by lia.
       apply Z.mod_mul. lia. }
  rewrite cast_u32_id; [lia | unfold is_u32; lia].
Qed.

(** X1: a status report leaves in the identity fields the big-endian
    numbers of the report: the two serial number parts are the 16-bit
    numbers at offsets 3 and 5, the firmware version the one at offset
    13, the power cycle count the 32-bit number at offset 24. *)
Theorem identity_decoded priv r data size jiffies :
  quadro_data_wf priv ->
  report_id r = QUADRO_STATUS_REPORT_ID ->
  let st := (quadro_raw_event priv r data size jiffies).2 in
  let raw off := 256 * deref data off + deref data (off + 1) in
  serial_number st = [raw 3; raw 5] /\
  firmware_version st = raw 13 /\
  power_cycles st =
    16777216 * deref data 24 + 65536 * deref data 25
    + 256 * deref data 26 + deref data 27 /\
  0 <= power_cycles st < 2 ^ 32.
Proof.
  intros Hwf Hr st raw. subst st raw.
  rewrite (quadro_raw_event_decoded _ _ _ _ _ Hwf Hr).
  cbn [snd decoded serial_number firmware_version power_cycles fmap
       list_fmap].
  rewrite <- !get_unaligned_be16_eq, get_unaligned_be32_eq.
  pose proof (byte_val_range (data 24)).
  pose proof (byte_val_range (data (24 + 1))).
  pose proof (byte_val_range (data (24 + 2))).
  pose proof (byte_val_range (data (24 + 3))).
  unfold deref in *. repeat split; lia.
Qed.

Lemma identity_decoded_witness :
  let priv := quadro_probe_created 250 0 0 in
  let data := poke (put_unaligned_be16 1020 zeroed QUADRO_FIRMWARE_VERSION)
                27 x07 in
  let st := (quadro_raw_event priv status_report data 163 1000).2 in
  quadro_data_wf priv /\
  firmware_version st = 1020 /\ power_cycles st = 7.
Proof.
  intros priv data st.
  assert (Hwf : quadro_data_wf priv) by (constructor; reflexivity).
  destruct (identity_decoded priv status_report data 163 1000 Hwf eq_refl)
    as (_ & Hf & Hp & _).
  split; [exact Hwf|]. split; [exact Hf | exact Hp].
Defined.

(** ** Reading what a report left *)

Lemma valid_channel_cases type channel :
  valid_channel type channel ->
  0 < channel_count type /\
  (channel = 0 \/ channel = 1 \/ channel = 2 \/ channel = 3 \/ channel = 4).
Proof.
  unfold valid_channel. intros H.
  destruct type; count_channels; lia.
Qed.

Lemma quadro_read_decoded HZ priv r data size T now type attr channel :
  quadro_data_wf priv ->
  report_id r = QUADRO_STATUS_REPORT_ID ->
  valid_channel type channel ->
  let st := (quadro_raw_event priv r data size T).2 in
  stale HZ st now = false ->
  quadro_read HZ st now type attr channel
  = Ok (channel_value data type channel).
Proof.
  intros Hwf Hr Hch st Hfresh. subst st.
  rewrite (quadro_raw_event_decoded _ _ _ _ _ Hwf Hr) in *. cbn [snd] in *.
  unfold quadro_read. fold (stale HZ (decoded priv data T) now).
  rewrite Hfresh.
  destruct (valid_channel_cases _ _ Hch) as [Hn Hc].
  unfold valid_channel in Hch.
  destruct type; count_channels; try lia;
    destruct Hc as [-> | [-> | [-> | [-> | ->]]]]; try lia;
    cbn [decoded temp_input speed_input power_input voltage_input
         current_input fmap list_fmap];
    rewrite ?get_unaligned_be16_eq; unfold cast_u16; reflexivity.
Qed.

(** X2: after a status report, a read on fresh data of a channel of the
    table returns the number of the report the channel stands for:
    ten times the number at 52 + 2c for temperature c; a tenth of the
    number at 110 for speed 0; for fan f = 1..4, whose block starts at
    114 + 13 (f - 1), the number 6 bytes into the block as its speed,
    ten thousand times the number 4 bytes in as its power, the number 2
    bytes in as its current and ten times the first number of the block,
    reduced to 16 bits, as its voltage; ten times the number at 108,
    reduced to 16 bits, as voltage 0. *)
Theorem read_after_decode HZ priv r data size T now type attr channel :
  quadro_data_wf priv ->
  report_id r = QUADRO_STATUS_REPORT_ID ->
  valid_channel type channel ->
  let st := (quadro_raw_event priv r data size T).2 in
  stale HZ st now = false ->
  quadro_read HZ st now type attr channel
  = Ok (channel_value data type channel).
Proof. apply quadro_read_decoded. Qed.

Lemma read_after_decode_witness :
  let priv := quadro_probe_created 250 0 0 in
  let data := put_unaligned_be16 1200 zeroed QUADRO_FAN3_SPEED in
  let st := (quadro_raw_event priv status_report data 163 1000).2 in
  quadro_data_wf priv /\ valid_channel hwmon_fan 3 /\
  stale 250 st 1100 = false /\
  channel_value data hwmon_fan 3 = 1200 /\
  quadro_read 250 st 1100 hwmon_fan 0 3 = Ok 1200.
Proof.
  intros priv data st.
  assert (Hwf : quadro_data_wf priv) by (constructor; reflexivity).
  assert (Hch : valid_channel hwmon_fan 3)
    by (unfold valid_channel; count_channels; lia).
  split; [exact Hwf|]. split; [exact Hch|]. split; [reflexivity|].
  split; [reflexivity|].
  exact (read_after_decode 250 priv status_report data 163 1000 1100
           hwmon_fan 0 3 Hwf eq_refl Hch eq_refl).
Defined.

(** X3: a voltage number of at most 6553 is read back exactly times 10:
    for such a report a fresh read of a voltage channel returns ten
    times the number at offset 108 (channel 0) or at the start of the
    fan's block (channels 1 to 4). *)
Theorem voltage_read_exact HZ priv r data size T now attr channel :
  quadro_data_wf priv ->
  report_id r = QUADRO_STATUS_REPORT_ID ->
  valid_channel hwmon_in channel ->
  let st := (quadro_raw_event priv r data size T).2 in
  let raw := be16_at data (if channel =? 0 then 108
                           else fan_block (channel - 1)) in
  stale HZ st now = false ->
  raw <= 6553 ->
  quadro_read HZ st now hwmon_in attr channel = Ok (raw * 10).
Proof.
  intros Hwf Hr Hch st raw Hfresh Hraw. subst st.
  assert (Hread := quadro_read_decoded HZ priv r data size T now hwmon_in
                     attr channel Hwf Hr Hch Hfresh).
  rewrite Hread. f_equal. subst raw. unfold channel_value.
  assert (Hpos : forall off, 0 <= be16_at data off).
  { intros off. unfold be16_at, deref.
    pose proof (byte_val_range (data off)).
    pose proof (byte_val_range (data (off + 1))). lia. }
  destruct (channel =? 0); apply Z.mod_small;
    match goal with |- 0 <= be16_at ?d ?o * 10 < _ =>
      specialize (Hpos o); lia end.
Qed.

Lemma voltage_read_exact_witness :
  let priv := quadro_probe_created 250 0 0 in
  let data := put_unaligned_be16 1205 zeroed QUADRO_VOLTAGE in
  let st := (quadro_raw_event priv status_report data 163 1000).2 in
  quadro_data_wf priv /\ valid_channel hwmon_in 0 /\
  stale 250 st 1100 = false /\ be16_at data 108 = 1205 /\
  quadro_read 250 st 1100 hwmon_in 0 0 = Ok 12050.
Proof.
  intros priv data st.
  assert (Hwf : quadro_data_wf priv) by (constructor; reflexivity).
  assert (Hch : valid_channel hwmon_in 0)
    by (unfold valid_channel; count_channels; lia).
  assert (Hraw : be16_at data 108 <= 6553) by (intros E; discriminate E).
  split; [exact Hwf|]. split; [exact Hch|]. split; [reflexivity|].
  split; [reflexivity|].
  exact (voltage_read_exact 250 priv status_report data 163 1000 1100 0 0
           Hwf eq_refl Hch eq_refl Hraw).
Defined.

(** ** The bytes a report is read from *)

Lemma get_unaligned_be16_ext data data' n off :
  (forall i, 0 <= i < n -> data i = data' i) ->
  0 <= off -> off + 1 < n ->
  get_unaligned_be16 data off = get_unaligned_be16 data' off.
Proof.
  intros E H0 H1. unfold get_unaligned_be16, deref.
  rewrite (E off), (E (off + 1)) by lia. reflexivity.
Qed.

Lemma get_unaligned_be32_ext data data' n off :
  (forall i, 0 <= i < n -> data i = data' i) ->
  0 <= off -> off + 3 < n ->
  get_unaligned_be32 data off = get_unaligned_be32 data' off.
Proof.
  intros E H0 H1. unfold get_unaligned_be32, deref.
  rewrite (E off), (E (off + 1)), (E (off + 2)), (E (off + 3)) by lia.
  reflexivity.
Qed.

(** X4: [quadro_raw_event] reads the first 161 bytes behind the data
    pointer and no others: two memories equal on offsets 0 to 160 give
    the same outcome, so with a report of 161 bytes or more nothing
    outside the report is read.  161 is the least such length: the
    byte at offset 160 is part of the speed of fan 4. *)
Theorem raw_event_reads_161_bytes priv r data data' size jiffies :
  quadro_data_wf priv ->
  161 <= size ->
  (forall i, 0 <= i < size -> data i = data' i) ->
  quadro_raw_event priv r data size jiffies
  = quadro_raw_event priv r data' size jiffies /\
  exists d d' : u8_ptr,
    (forall i, 0 <= i < 160 -> d i = d' i) /\
    quadro_raw_event priv status_report d 160 jiffies
    <> quadro_raw_event priv status_report d' 160 jiffies.
Proof.
  intros Hwf Hsize E. split.
  - unfold quadro_raw_event.
    destruct (negb (report_id r =? QUADRO_STATUS_REPORT_ID)); [reflexivity|].
    assert (E16 : forall off, 0 <= off <= 159 ->
              get_unaligned_be16 data off = get_unaligned_be16 data' off).
    { intros off Hoff.
      apply (get_unaligned_be16_ext data data' size); [exact E|lia|lia]. }
    assert (E32 : get_unaligned_be32 data QUADRO_POWER_CYCLES
                  = get_unaligned_be32 data' QUADRO_POWER_CYCLES).
    { apply (get_unaligned_be32_ext data data' size);
        [exact E|unfold QUADRO_POWER_CYCLES; lia
        |unfold QUADRO_POWER_CYCLES; lia]. }
    cbv zeta. rewrite E32.
    rewrite !(E16 _) by (vm_compute; split; discriminate).
    reflexivity.
  - exists zeroed, (poke zeroed 160 x01). split.
    + intros i Hi. unfold poke.
      destruct (Z.eqb_spec i 160); [lia | reflexivity].
    + intros H. apply (f_equal (fun o => speed_input o.2 !! 4%nat)) in H.
      unfold quadro_raw_event in H. cbn [negb report_id status_report] in H.
      change (QUADRO_STATUS_REPORT_ID =? QUADRO_STATUS_REPORT_ID)
        with true in H.
      cbn [negb snd speed_input] in H.
      pose proof (wf_speed _ Hwf) as Hs.
      destruct (speed_input priv) as [|? [|? [|? [|? [|? [|? ?]]]]]];
        try discriminate Hs.
      vm_compute in H. discriminate H.
Qed.

Lemma raw_event_reads_161_bytes_witness :
  let priv := quadro_probe_created 250 0 0 in
  let data := put_unaligned_be16 250 zeroed QUADRO_TEMP1 in
  let data' := poke data 161 xff in
  quadro_data_wf priv /\ 161 <= 161 /\
  (forall i, 0 <= i < 161 -> data i = data' i) /\
  quadro_raw_event priv status_report data 161 1000
  = quadro_raw_event priv status_report data' 161 1000.
Proof.
  intros priv data data'.
  assert (Hwf : quadro_data_wf priv) by (constructor; reflexivity).
  assert (Hsz : 161 <= 161) by lia.
  assert (E : forall i, 0 <= i < 161 -> data i = data' i).
  { intros i Hi. unfold data', poke.
    destruct (Z.eqb_spec i 161); [lia | reflexivity]. }
  split; [exact Hwf|]. split; [exact Hsz|]. split; [exact E|].
  exact (proj1 (raw_event_reads_161_bytes priv status_report data data' 161
                  1000 Hwf Hsz E)).
Defined.

(** ** One report after another *)

Lemma quadro_raw_event_skip priv r data size jiffies :
  report_id r <> QUADRO_STATUS_REPORT_ID ->
  quadro_raw_event priv r data size jiffies = (0, priv).
Proof.
  intros Hr. unfold quadro_raw_event.
  destruct (Z.eqb_spec (report_id r) QUADRO_STATUS_REPORT_ID);
    [contradiction | reflexivity].
Qed.

(** X5: a status report replaces the whole snapshot: decoded after any
    earlier report, it leaves the state it would leave without that
    earlier report.  No report, of whatever kind, changes the three
    pointers of the state. *)
Theorem raw_event_last_report_wins
    priv r1 r2 data1 data2 size1 size2 j1 j2 :
  quadro_data_wf priv ->
  report_id r2 = QUADRO_STATUS_REPORT_ID ->
  let st1 := (quadro_raw_event priv r1 data1 size1 j1).2 in
  quadro_raw_event st1 r2 data2 size2 j2
  = quadro_raw_event priv r2 data2 size2 j2 /\
  hdev st1 = hdev priv /\ hwmon_dev st1 = hwmon_dev priv /\
  debugfs st1 = debugfs priv.
Proof.
  intros Hwf Hr2 st1. subst st1.
  destruct (Z.eq_dec (report_id r1) QUADRO_STATUS_REPORT_ID) as [Hr1 | Hr1].
  - rewrite (quadro_raw_event_decoded _ r1 _ _ _ Hwf Hr1). cbn [snd].
    rewrite (quadro_raw_event_decoded _ r2 _ _ _ (decoded_wf _ _ _) Hr2).
    rewrite (quadro_raw_event_decoded _ r2 _ _ _ Hwf Hr2).
    repeat split.
  - rewrite (quadro_raw_event_skip _ r1 _ _ _ Hr1). repeat split.
Qed.

Lemma raw_event_last_report_wins_witness :
  let priv := quadro_probe_created 250 0 0 in
  let data1 := put_unaligned_be16 250 zeroed QUADRO_TEMP1 in
  let data2 := put_unaligned_be16 300 zeroed QUADRO_TEMP2 in
  let st1 := (quadro_raw_event priv status_report data1 163 1000).2 in
  quadro_data_wf priv /\
  quadro_raw_event st1 status_report data2 163 1250
  = quadro_raw_event priv status_report data2 163 1250.
Proof.
  intros priv data1 data2 st1.
  assert (Hwf : quadro_data_wf priv) by (constructor; reflexivity).
  split; [exact Hwf|].
  exact (proj1 (raw_event_last_report_wins priv status_report status_report
                  data1 data2 163 163 1000 1250 Hwf eq_refl)).
Defined.

(** ** Invariants of the device state *)

Lemma get_unaligned_be32_range p off : is_u32 (get_unaligned_be32 p off).
Proof.
  unfold get_unaligned_be32, cast_u32, is_u32.
  apply Z.mod_pos_bound. lia.
Qed.

(** Closes a goal about one 16-bit number of the report by its range. *)
Ltac be16_range :=
  match goal with
  | |- context [cast_u16 ?x] =>
      pose proof (cast_u16_range x) as Hx; unfold is_u16, U16_MAX in Hx
  | |- context [get_unaligned_be16 ?p ?off] =>
      pose proof (get_unaligned_be16_range p off) as Hx;
      unfold is_u16, U16_MAX in Hx
  end.

Lemma div10_bounds x : 0 <= x <= 65535 -> 0 <= x / 10 <= 6553.
Proof.
  intros H. split; [apply Z.div_pos; lia|].
  apply Z.lt_succ_r, Z.div_lt_upper_bound; lia.
Qed.

Lemma decoded_typed priv data jiffies :
  is_ulong jiffies -> quadro_data_typed (decoded priv data jiffies).
Proof.
  intros Hj.
  constructor;
    cbn [decoded temp_input speed_input power_input voltage_input
         current_input serial_number firmware_version power_cycles updated
         fmap list_fmap];
    try exact Hj; try apply get_unaligned_be32_range;
    try apply get_unaligned_be16_range;
    repeat match goal with |- Forall _ _ => constructor end;
    unfold is_s32, is_u16, is_u32, U16_MAX;
    try (be16_range; lia).
  pose proof (get_unaligned_be16_range data 110) as Hx.
  unfold is_u16, U16_MAX in Hx.
  pose proof (div10_bounds (get_unaligned_be16 data 110)). lia.
Qed.

Lemma decoded_bounds priv data jiffies :
  quadro_data_bounds (decoded priv data jiffies).
Proof.
  constructor;
    cbn [decoded temp_input speed_input power_input serial_number
         fmap list_fmap].
  - repeat match goal with
           | |- Forall _ _ => constructor
           | |- _ /\ _ => split
           end;
      try (apply Z.mod_mul; lia); be16_range; lia.
  - intros v Hv. injection Hv as <-.
    pose proof (get_unaligned_be16_range data 110) as Hx.
    unfold is_u16, U16_MAX in Hx. apply div10_bounds. lia.
  - repeat match goal with
           | |- Forall _ _ => constructor
           | |- _ /\ _ => split
           end;
      try (apply Z.mod_mul; lia); be16_range; lia.
  - repeat constructor; apply get_unaligned_be16_range.
Qed.

Lemma created_invariant HZ ptr dir hdev_ptr jiffies :
  let priv := set_hwmon_dev ptr dir (quadro_probe_created HZ hdev_ptr jiffies)
  in quadro_data_wf priv /\ quadro_data_typed priv /\ quadro_data_bounds priv.
Proof.
  intros priv. split; [|split].
  - constructor; reflexivity.
  - constructor;
      cbn [priv set_hwmon_dev quadro_probe_created kzalloc_quadro_data
           temp_input speed_input power_input voltage_input current_input
           serial_number firmware_version power_cycles updated replicate];
      try apply cast_ulong_range;
      repeat match goal with |- Forall _ _ => constructor end;
      unfold is_s32, is_u16, is_u32, U16_MAX; lia.
  - constructor;
      cbn [priv set_hwmon_dev quadro_probe_created kzalloc_quadro_data
           temp_input speed_input power_input serial_number replicate].
    + repeat constructor; lia.
    + intros v Hv. injection Hv as <-. lia.
    + repeat constructor; lia.
    + repeat constructor; unfold U16_MAX; lia.
Qed.

Lemma reachable_invariant_aux HZ priv :
  reachable HZ priv ->
  quadro_data_wf priv /\ quadro_data_typed priv /\ quadro_data_bounds priv.
Proof.
  induction 1 as [env hdev_ptr j ret priv Hj Hp
                 | priv r data size j Hreach IH Hj].
  - destruct (quadro_probe_state _ _ _ _ _ _ Hp) as (ptr & dir & ->).
    apply created_invariant.
  - destruct (Z.eq_dec (report_id r) QUADRO_STATUS_REPORT_ID) as [Hr | Hr].
    + rewrite (quadro_raw_event_decoded _ r _ _ _ (proj1 IH) Hr). cbn [snd].
      split; [apply decoded_wf|].
      split; [apply decoded_typed, Hj | apply decoded_bounds].
    + rewrite (quadro_raw_event_skip _ r _ _ _ Hr). exact IH.
Qed.

(** X6: every state the device goes through, from [quadro_probe] on and
    through any reports, has arrays of the declared sizes, holds in each
    field a value of the field's C type, and keeps each temperature a
    multiple of 10 from 0 to 655350, the flow speed at most 6553, each
    power a multiple of 10000 up to 655350000 and the serial number
    parts within 16 bits. *)
Theorem reachable_invariant HZ priv :
  reachable HZ priv ->
  quadro_data_wf priv /\ quadro_data_typed priv /\ quadro_data_bounds priv.
Proof. apply reachable_invariant_aux. Qed.

Lemma reachable_invariant_witness :
  let priv := set_hwmon_dev 4096 0 (quadro_probe_created 250 64 1000) in
  let data := put_unaligned_be16 65535 zeroed QUADRO_FAN1_POWER in
  let st := (quadro_raw_event priv status_report data 163 1250).2 in
  reachable 250 st /\
  quadro_data_wf st /\ quadro_data_typed st /\ quadro_data_bounds st.
Proof.
  intros priv data st.
  assert (Hj : forall j, 0 <= j <= 2000 -> is_ulong j)
    by (intros j Hj; unfold is_ulong, ULONG_MAX, BITS_PER_LONG; lia).
  assert (Hreach : reachable 250 st).
  { apply reachable_event; [|apply Hj; lia].
    apply (reachable_probe 250
             {| kzalloc_ok := true; hid_parse_ret := 0;
                hid_hw_start_ret := 0; hid_hw_open_ret := 0;
                hwmon_register_ret := 4096; debugfs_dir := 0 |}
             64 1000 0); [apply Hj; lia | reflexivity]. }
  split; [exact Hreach|].
  exact (reachable_invariant 250 st Hreach).
Defined.

(** ** The values a read returns *)

Lemma array_read_Ok {A} (a : list A) i v :
  array_read a i = Ok v -> a !! Z.to_nat i = Some v.
Proof.
  unfold array_read. destruct (i <? 0); [discriminate|].
  destruct (a !! Z.to_nat i); [|discriminate].
  intros E. injection E as ->. reflexivity.
Qed.

(** X7: whatever the device went through, a value [quadro_read] returns
    is never negative and never above 655350000; a temperature is a
    multiple of 10 of at most 655350, a power a multiple of 10000, and
    a speed, a voltage or a current is at most 65535. *)
Theorem quadro_read_value_bounds HZ priv now type attr channel v :
  reachable HZ priv ->
  quadro_read HZ priv now type attr channel = Ok v ->
  0 <= v <= 655350000 /\
  (type = hwmon_temp -> v <= 655350 /\ v mod 10 = 0) /\
  (type = hwmon_power -> v mod 10000 = 0) /\
  (type = hwmon_fan \/ type = hwmon_in \/ type = hwmon_curr -> v <= 65535).
Proof.
  intros Hreach Hread.
  destruct (reachable_invariant_aux HZ priv Hreach) as (_ & Ht & Hb).
  unfold quadro_read in Hread.
  destruct (time_after _ _); [discriminate|].
  destruct type; try discriminate Hread;
    apply array_read_Ok in Hread.
  - pose proof (Forall_lookup_1 _ _ _ _ (bounds_temp _ Hb) Hread) as [? ?].
    repeat split; try lia; intros; try discriminate; try lia;
      repeat match goal with H : _ \/ _ |- _ => destruct H end;
      discriminate.
  - pose proof (Forall_lookup_1 _ _ _ _ (typed_voltage _ Ht) Hread) as H.
    unfold is_u16, U16_MAX in H.
    repeat split; try lia; intros; try discriminate; lia.
  - pose proof (Forall_lookup_1 _ _ _ _ (typed_current _ Ht) Hread) as H.
    unfold is_u16, U16_MAX in H.
    repeat split; try lia; intros; try discriminate; lia.
  - pose proof (Forall_lookup_1 _ _ _ _ (bounds_power _ Hb) Hread) as [? ?].
    repeat split; try lia; intros; try discriminate; try lia;
      repeat match goal with H : _ \/ _ |- _ => destruct H end;
      discriminate.
  - pose proof (Forall_lookup_1 _ _ _ _ (typed_speed _ Ht) Hread) as H.
    unfold is_u16, U16_MAX in H.
    repeat split; try lia; intros; try discriminate; lia.
Qed.

Lemma quadro_read_value_bounds_witness :
  let priv := set_hwmon_dev 4096 0 (quadro_probe_created 250 64 1000) in
  let data := put_unaligned_be16 65535 zeroed QUADRO_FAN1_POWER in
  let st := (quadro_raw_event priv status_report data 163 1250).2 in
  reachable 250 st /\
  quadro_read 250 st 1300 hwmon_power 0 0 = Ok 655350000 /\
  0 <= 655350000 <= 655350000.
Proof.
  intros priv data st.
  assert (Hj : forall j, 0 <= j <= 2000 -> is_ulong j)
    by (intros j Hj; unfold is_ulong, ULONG_MAX, BITS_PER_LONG; lia).
  assert (Hreach : reachable 250 st).
  { apply reachable_event; [|apply Hj; lia].
    apply (reachable_probe 250
             {| kzalloc_ok := true; hid_parse_ret := 0;
                hid_hw_start_ret := 0; hid_hw_open_ret := 0;
                hwmon_register_ret := 4096; debugfs_dir := 0 |}
             64 1000 0); [apply Hj; lia | reflexivity]. }
  assert (Hread : quadro_read 250 st 1300 hwmon_power 0 0 = Ok 655350000)
    by reflexivity.
  split; [exact Hreach|]. split; [exact Hread|].
  exact (proj1 (quadro_read_value_bounds 250 st 1300 hwmon_power 0 0
                  655350000 Hreach Hread)).
Defined.

(** ** The freshness window *)

Lemma cast_ulong_sub_period x : cast_ulong (x - 2 ^ 64) = cast_ulong x.
Proof.
  unfold cast_ulong, BITS_PER_LONG.
  replace (x - 2 ^ 64) with (x + (-1) * 2 ^ 64) by lia.
  apply Z.mod_add. lia.
Qed.

(** Staleness [d] ticks after a report, for [d] within half the range of
    the counter around the deadline. *)
Lemma stale_decoded HZ priv data T d :
  - 2 ^ 63 < d - 2 * HZ <= 2 ^ 63 ->
  stale HZ (decoded priv data T) (cast_ulong (T + d)) = (2 * HZ <? d).
Proof.
  intros Hd. unfold stale. cbn [updated decoded].
  unfold QUADRO_STATUS_UPDATE_INTERVAL.
  replace (T + d) with (T + 2 * HZ + (d - 2 * HZ)) by lia.
  rewrite time_after_shift by exact Hd.
  destruct (Z.ltb_spec 0 (d - 2 * HZ)), (Z.ltb_spec (2 * HZ) d);
    try reflexivity; lia.
Qed.

(** X8: for two seconds after a status report every channel of the
    table reads the value of that report: [d] ticks after the report,
    for [d] from 0 to 2 * HZ, [quadro_read] returns the channel's value,
    also when the tick counter wraps around in between. *)
Theorem fresh_throughout_window HZ priv r data size T d type attr channel :
  quadro_data_wf priv ->
  report_id r = QUADRO_STATUS_REPORT_ID ->
  valid_channel type channel ->
  0 <= 2 * HZ < 2 ^ 63 ->
  0 <= d <= 2 * HZ ->
  let st := (quadro_raw_event priv r data size T).2 in
  quadro_read HZ st (cast_ulong (T + d)) type attr channel
  = Ok (channel_value data type channel).
Proof.
  intros Hwf Hr Hch HHZ Hd st. subst st.
  apply quadro_read_decoded; [exact Hwf | exact Hr | exact Hch |].
  rewrite (quadro_raw_event_decoded _ _ _ _ _ Hwf Hr). cbn [snd].
  rewrite stale_decoded by lia.
  destruct (Z.ltb_spec (2 * HZ) d); [lia | reflexivity].
Qed.

Lemma fresh_throughout_window_witness :
  let priv := quadro_probe_created 250 64 1000 in
  let data := put_unaligned_be16 2500 zeroed QUADRO_TEMP3 in
  let T := 2 ^ 64 - 100 in
  let st := (quadro_raw_event priv status_report data 163 T).2 in
  quadro_data_wf priv /\ valid_channel hwmon_temp 2 /\
  0 <= 2 * 250 < 2 ^ 63 /\ 0 <= 400 <= 2 * 250 /\
  cast_ulong (T + 400) = 300 /\
  quadro_read 250 st 300 hwmon_temp 0 2 = Ok 25000.
Proof.
  intros priv data T st.
  assert (Hwf : quadro_data_wf priv) by (constructor; reflexivity).
  assert (Hch : valid_channel hwmon_temp 2)
    by (unfold valid_channel; count_channels; lia).
  assert (HHZ : 0 <= 2 * 250 < 2 ^ 63) by lia.
  assert (Hd : 0 <= 400 <= 2 * 250) by lia.
  split; [exact Hwf|]. split; [exact Hch|]. split; [exact HHZ|].
  split; [exact Hd|]. split; [reflexivity|].
  exact (fresh_throughout_window 250 priv status_report data 163 T 400
           hwmon_temp 0 2 Hwf eq_refl Hch HHZ Hd).
Defined.

(** X9: once the two seconds are over the data is stale, whatever is
    asked for: from 2 * HZ + 1 ticks after a status report and for the
    2^63 ticks that follow, [quadro_read] returns [-ENODATA] for every
    type and channel. *)
Theorem stale_after_window HZ priv r data size T d type attr channel :
  quadro_data_wf priv ->
  report_id r = QUADRO_STATUS_REPORT_ID ->
  2 * HZ < d <= 2 * HZ + 2 ^ 63 ->
  let st := (quadro_raw_event priv r data size T).2 in
  quadro_read HZ st (cast_ulong (T + d)) type attr channel
  = Error (- ENODATA).
Proof.
  intros Hwf Hr Hd st. subst st.
  apply quadro_read_stale.
  rewrite (quadro_raw_event_decoded _ _ _ _ _ Hwf Hr). cbn [snd].
  rewrite stale_decoded by lia.
  destruct (Z.ltb_spec (2 * HZ) d); [reflexivity | lia].
Qed.

Lemma stale_after_window_witness :
  let priv := quadro_probe_created 250 64 1000 in
  let st := (quadro_raw_event priv status_report zeroed 163 1000).2 in
  quadro_data_wf priv /\ 2 * 250 < 86400000 <= 2 * 250 + 2 ^ 63 /\
  quadro_read 250 st (cast_ulong (1000 + 86400000)) hwmon_chip 7 (-3)
  = Error (- ENODATA).
Proof.
  intros priv st.
  assert (Hwf : quadro_data_wf priv) by (constructor; reflexivity).
  assert (Hd : 2 * 250 < 86400000 <= 2 * 250 + 2 ^ 63) by lia.
  split; [exact Hwf|]. split; [exact Hd|].
  exact (stale_after_window 250 priv status_report zeroed 163 1000 86400000
           hwmon_chip 7 (-3) Hwf eq_refl Hd).
Defined.

(** X10: [time_after] compares within half the range of the counter,
    so the staleness does not last: more than 2^63 ticks past the
    deadline, and until the counter has gone round once, [quadro_read]
    returns the values of the old report again. *)
Theorem fresh_again_after_half_range
    HZ priv r data size T d type attr channel :
  quadro_data_wf priv ->
  report_id r = QUADRO_STATUS_REPORT_ID ->
  valid_channel type channel ->
  2 * HZ + 2 ^ 63 < d <= 2 * HZ + 2 ^ 64 ->
  let st := (quadro_raw_event priv r data size T).2 in
  quadro_read HZ st (cast_ulong (T + d)) type attr channel
  = Ok (channel_value data type channel).
Proof.
  intros Hwf Hr Hch Hd st. subst st.
  apply quadro_read_decoded; [exact Hwf | exact Hr | exact Hch |].
  rewrite (quadro_raw_event_decoded _ _ _ _ _ Hwf Hr). cbn [snd].
  rewrite <- cast_ulong_sub_period.
  replace (T + d - 2 ^ 64) with (T + (d - 2 ^ 64)) by lia.
  rewrite stale_decoded by lia.
  destruct (Z.ltb_spec (2 * HZ) (d - 2 ^ 64)); [lia | reflexivity].
Qed.

Lemma fresh_again_after_half_range_witness :
  let priv := quadro_probe_created 250 64 1000 in
  let data := put_unaligned_be16 2500 zeroed QUADRO_TEMP3 in
  let st := (quadro_raw_event priv status_report data 163 1000).2 in
  let d := 2 * 250 + 2 ^ 63 + 1 in
  quadro_data_wf priv /\ valid_channel hwmon_temp 2 /\
  2 * 250 + 2 ^ 63 < d <= 2 * 250 + 2 ^ 64 /\
  quadro_read 250 st (cast_ulong (1000 + d)) hwmon_temp 0 2 = Ok 25000.
Proof.
  intros priv data st d.
  assert (Hwf : quadro_data_wf priv) by (constructor; reflexivity).
  assert (Hch : valid_channel hwmon_temp 2)
    by (unfold valid_channel; count_channels; lia).
  assert (Hd : 2 * 250 + 2 ^ 63 < d <= 2 * 250 + 2 ^ 64)
    by (unfold d; lia).
  split; [exact Hwf|]. split; [exact Hch|]. split; [exact Hd|].
  exact (fresh_again_after_half_range 250 priv status_report data 163 1000 d
           hwmon_temp 0 2 Hwf eq_refl Hch Hd).
Defined.

(** ** The channel table, the labels and the arrays *)

Lemma array_read_Ok_iff {A} (a : list A) i :
  (exists v, array_read a i = Ok v) <-> 0 <= i < Z.of_nat (length a).
Proof.
  split.
  - intros [v Hv]. unfold array_read in Hv.
    destruct (Z.ltb_spec i 0); [discriminate|].
    destruct (a !! Z.to_nat i) eqn:E; [|discriminate].
    apply lookup_lt_Some in E. lia.
  - intros Hi. destruct (array_read_in a i Hi) as (v & _ & Hv). eauto.
Qed.

Lemma label_iff_registered_aux priv type attr channel :
  (exists s, quadro_read_string priv type attr channel = Ok s)
  <-> valid_channel type channel.
Proof.
  unfold valid_channel, quadro_read_string.
  destruct type; count_channels;
    try (rewrite array_read_Ok_iff; reflexivity);
    (split; [intros [s Hs]; discriminate Hs | lia]).
Qed.

(** X11: [quadro_read_string] delivers a label exactly for the channels
    [quadro_info] registers: the label arrays have one entry for each
    channel of the table and none besides. *)
Theorem label_iff_registered priv type attr channel :
  (exists s, quadro_read_string priv type attr channel = Ok s)
  <-> valid_channel type channel.
Proof. apply label_iff_registered_aux. Qed.

(** X12: on fresh data [quadro_read] delivers a value exactly for the
    channels [quadro_info] registers: each array of the state has one
    slot for each channel of the table and none besides. *)
Theorem read_iff_registered HZ priv now type attr channel :
  quadro_data_wf priv ->
  stale HZ priv now = false ->
  (exists v, quadro_read HZ priv now type attr channel = Ok v)
  <-> valid_channel type channel.
Proof.
  intros [Ht Hs Hp Hv Hc _] Hfresh.
  unfold valid_channel, quadro_read.
  fold (stale HZ priv now). rewrite Hfresh.
  destruct type; count_channels;
    try (rewrite array_read_Ok_iff, ?Ht, ?Hs, ?Hp, ?Hv, ?Hc; reflexivity);
    (split; [intros [s Hs']; discriminate Hs' | lia]).
Qed.

Lemma read_iff_registered_witness :
  let priv := quadro_probe_created 250 64 1000 in
  quadro_data_wf priv /\ stale 250 priv 1000 = false /\
  ((exists v, quadro_read 250 priv 1000 hwmon_curr 0 4 = Ok v)
   <-> valid_channel hwmon_curr 4).
Proof.
  intros priv.
  assert (Hwf : quadro_data_wf priv) by (constructor; reflexivity).
  split; [exact Hwf|]. split; [reflexivity|].
  exact (read_iff_registered 250 priv 1000 hwmon_curr 0 4 Hwf eq_refl).
Defined.

(** X13: no two channels share a label: when [quadro_read_string]
    returns the same text for two requests, the two are for the same
    type and the same channel. *)
Theorem labels_distinct priv1 priv2 type1 type2 attr1 attr2 c1 c2 s :
  quadro_read_string priv1 type1 attr1 c1 = Ok s ->
  quadro_read_string priv2 type2 attr2 c2 = Ok s ->
  type1 = type2 /\ c1 = c2.
Proof.
  intros H1 H2.
  assert (V1 : valid_channel type1 c1)
    by (apply (label_iff_registered_aux priv1 type1 attr1); eauto).
  assert (V2 : valid_channel type2 c2)
    by (apply (label_iff_registered_aux priv2 type2 attr2); eauto).
  destruct (valid_channel_cases _ _ V1) as [_ C1].
  destruct (valid_channel_cases _ _ V2) as [_ C2].
  unfold valid_channel in V1, V2.
  destruct type1; count_channels; try lia;
    destruct C1 as [-> | [-> | [-> | [-> | ->]]]]; try lia;
    vm_compute in H1; injection H1 as <-;
    destruct type2; count_channels; try lia;
    destruct C2 as [-> | [-> | [-> | [-> | ->]]]]; try lia;
    vm_compute in H2; first [discriminate H2 | split; reflexivity].
Qed.

Lemma labels_distinct_witness :
  quadro_read_string kzalloc_quadro_data hwmon_in 0 0 = Ok "VCC"%string /\
  quadro_read_string (quadro_probe_created 250 0 0) hwmon_in 1 0
  = Ok "VCC"%string /\
  hwmon_in = hwmon_in /\ 0 = 0.
Proof.
  split; [reflexivity|]. split; [reflexivity|].
  exact (labels_distinct kzalloc_quadro_data (quadro_probe_created 250 0 0)
           hwmon_in hwmon_in 0 1 0 0 "VCC" eq_refl eq_refl).
Defined.

(** ** What [quadro_probe] and [quadro_remove] acquire and release *)

Lemma IS_ERR_nonzero ptr : IS_ERR ptr = true -> (ptr =? 0) = false.
Proof.
  unfold IS_ERR. rewrite andb_true_iff, Z.leb_le, Z.ltb_lt.
  intros [_ H]. apply Z.eqb_neq. lia.
Qed.

Lemma quadro_probe_run HZ env hdev_ptr jiffies :
  kernel_run no_resources (quadro_probe_calls env)
  = Some (if (quadro_probe HZ env hdev_ptr jiffies).1 =? 0
          then probed_resources env else no_resources).
Proof.
  unfold quadro_probe, quadro_probe_calls, probed_resources.
  destruct env as [k p s o h d]. cbn [kzalloc_ok hid_parse_ret
    hid_hw_start_ret hid_hw_open_ret hwmon_register_ret debugfs_dir].
  destruct k; [|reflexivity].
  destruct (p =? 0) eqn:Ep; destruct (s =? 0) eqn:Es;
    destruct (o =? 0) eqn:Eo; destruct (IS_ERR h) eqn:Eh;
    repeat (cbn [negb fst kernel_run kernel_step hw hwmon_registered
                 debugfs_created no_resources];
            rewrite ?Ep, ?Es, ?Eo, ?Eh);
    try reflexivity;
    rewrite (IS_ERR_nonzero _ Eh); reflexivity.
Qed.

(** X14: [quadro_probe] makes its calls in an order the kernel allows
    (start, then open, then register), and a probe that fails leaves
    nothing behind: the hardware it started is stopped again, the device
    it opened is closed again, and no hwmon device or debugfs directory
    remains.  A probe that returns 0 leaves the device open, the hwmon
    device registered and the debugfs directory, if any, created. *)
Theorem quadro_probe_releases_on_failure HZ env hdev_ptr jiffies :
  kernel_run no_resources (quadro_probe_calls env)
  = Some (if (quadro_probe HZ env hdev_ptr jiffies).1 =? 0
          then probed_resources env else no_resources).
Proof. apply quadro_probe_run. Qed.

(** X15: [quadro_remove] undoes a successful probe: after the calls of
    the probe and those of the removal, each made in a state that
    allows it, the directory is removed, the hwmon device unregistered,
    the device closed and the hardware stopped. *)
Theorem quadro_remove_releases_all HZ env hdev_ptr jiffies priv :
  quadro_probe HZ env hdev_ptr jiffies = (0, Some priv) ->
  kernel_run no_resources (quadro_probe_calls env ++ quadro_remove_calls priv)
  = Some no_resources.
Proof.
  intros Hp.
  assert (Hrun := quadro_probe_run HZ env hdev_ptr jiffies).
  rewrite Hp in Hrun. cbn [fst] in Hrun. change (0 =? 0) with true in Hrun.
  assert (Happ : forall cs1 cs2 s s',
             kernel_run s cs1 = Some s' ->
             kernel_run s (cs1 ++ cs2) = kernel_run s' cs2).
  { induction cs1 as [|c cs1 IH]; intros cs2 s s' H; cbn in *.
    - injection H as ->. reflexivity.
    - destruct (kernel_step s c); [|discriminate]. apply IH, H. }
  rewrite (Happ _ _ _ _ Hrun).
  unfold quadro_probe in Hp.
  destruct (negb (kzalloc_ok env)); [discriminate|].
  destruct (negb (hid_parse_ret env =? 0)) eqn:Ep;
    [injection Hp as E _; rewrite E in Ep; discriminate|].
  destruct (negb (hid_hw_start_ret env =? 0)) eqn:Es;
    [injection Hp as E _; rewrite E in Es; discriminate|].
  destruct (negb (hid_hw_open_ret env =? 0)) eqn:Eo;
    [injection Hp as E _; rewrite E in Eo; discriminate|].
  destruct (IS_ERR (hwmon_register_ret env)) eqn:Eh;
    [injection Hp as E _; rewrite E in Eh; discriminate|].
  injection Hp as <-.
  unfold quadro_remove_calls, probed_resources.
  cbn [set_hwmon_dev debugfs hwmon_dev kernel_run kernel_step
       debugfs_created hwmon_registered hw].
  destruct (debugfs_dir env =? 0) eqn:Ed;
    repeat (cbn [debugfs_created hwmon_registered hw];
            rewrite ?Z.eqb_refl);
    reflexivity.
Qed.

Lemma quadro_remove_releases_all_witness :
  let env := {| kzalloc_ok := true; hid_parse_ret := 0;
                hid_hw_start_ret := 0; hid_hw_open_ret := 0;
                hwmon_register_ret := 4096; debugfs_dir := 8192 |} in
  let priv := set_hwmon_dev 4096 8192 (quadro_probe_created 250 64 1000) in
  quadro_probe 250 env 64 1000 = (0, Some priv) /\
  kernel_run no_resources (quadro_probe_calls env ++ quadro_remove_calls priv)
  = Some no_resources.
Proof.
  intros env priv.
  assert (Hp : quadro_probe 250 env 64 1000 = (0, Some priv)) by reflexivity.
  split; [exact Hp|].
  exact (quadro_remove_releases_all 250 env 64 1000 priv Hp).
Defined.

(** ** The debugfs files *)

Lemma forall_pos_spec k P :
  forall_pos k P = true ->
  forall p, Z.pos p < 2 ^ Z.of_nat (S k) -> P p = true.
Proof.
  revert P. induction k as [|k IH]; intros P H p Hp.
  - cbn in H. apply andb_true_iff in H as [H _].
    change (2 ^ Z.of_nat 1) with 2 in Hp.
    destruct p; try lia. exact H.
  - cbn [forall_pos] in H.
    apply andb_true_iff in H as [H1 H].
    apply andb_true_iff in H as [H0 H2].
    rewrite Nat2Z.inj_succ, Z.pow_succ_r in Hp by lia.
    destruct p as [q | q |].
    + apply (IH (fun p => P (p~1)%positive) H2 q). lia.
    + apply (IH (fun p => P (p~0)%positive) H0 q). lia.
    + exact H1.
Qed.

(** Every number of 16 bits takes exactly five characters under
    [%05u]; checked on each of them. *)
Lemma format_05u_length n :
  0 <= n <= 65535 -> String.length (format_05u n) = 5%nat.
Proof.
  intros Hn. destruct n as [|p|p]; [reflexivity| |lia].
  apply Nat.eqb_eq.
  apply (forall_pos_spec 15
           (fun p => (String.length (format_05u (Z.pos p)) =? 5)%nat)).
  - vm_compute. reflexivity.
  - change (2 ^ Z.of_nat 16) with 65536. lia.
Qed.

Lemma parse_u_format_u n : 0 <= n -> parse_u (format_u n) = Some n.
Proof.
  intros Hn. unfold parse_u, format_u.
  rewrite NilEmpty.usu, Unsigned.of_to, Z2N.id by exact Hn. reflexivity.
Qed.

Lemma parse_u_zeros k s :
  parse_u (string_of_list_ascii (replicate k "0"%char) ++ s) = parse_u s.
Proof.
  induction k as [|k IH]; [reflexivity|].
  cbn [replicate string_of_list_ascii String.append].
  unfold parse_u in *. cbn [NilEmpty.uint_of_string].
  destruct (NilEmpty.uint_of_string
              (string_of_list_ascii (replicate k "0"%char) ++ s)) as [d|];
    destruct (NilEmpty.uint_of_string s) as [d'|];
    try discriminate IH; [|reflexivity].
  injection IH as IH. apply N2Z.inj in IH.
  cbn [uint_of_char]. do 2 f_equal. exact IH.
Qed.

Lemma parse_u_format_05u n : 0 <= n -> parse_u (format_05u n) = Some n.
Proof.
  intros Hn. unfold format_05u, zero_pad.
  rewrite parse_u_zeros. apply parse_u_format_u, Hn.
Qed.

Lemma string_length_append s1 s2 :
  String.length (s1 ++ s2) = (String.length s1 + String.length s2)%nat.
Proof. induction s1 as [|c s1 IH]; cbn; [reflexivity | rewrite IH; reflexivity]. Qed.

Lemma string_length_substring n s : (String.length (substring 0 n s) <= n)%nat.
Proof.
  revert s. induction n as [|n IH]; intros [|c s]; cbn; try lia.
  specialize (IH s). lia.
Qed.

(** X16: whatever the device went through, [serial_number_show] prints
    twelve characters: five decimal digits that read back as the first
    part of the serial number, a hyphen, five digits that read back as
    the second part, and a newline. *)
Theorem serial_number_show_format HZ priv :
  reachable HZ priv ->
  exists a b sa sb,
    serial_number priv = [a; b] /\
    serial_number_show priv = Ok (sa ++ "-" ++ sb ++ newline)%string /\
    String.length sa = 5%nat /\ String.length sb = 5%nat /\
    parse_u sa = Some a /\ parse_u sb = Some b /\
    String.length (sa ++ "-" ++ sb ++ newline) = 12%nat.
Proof.
  intros Hreach.
  destruct (reachable_invariant_aux HZ priv Hreach) as (Hwf & _ & Hb).
  pose proof (wf_serial _ Hwf) as Hlen.
  pose proof (bounds_serial _ Hb) as Hser.
  unfold serial_number_show.
  destruct (serial_number priv) as [|a [|b [|? ?]]]; try discriminate Hlen.
  apply Forall_cons in Hser as [Ha Hser].
  apply Forall_cons in Hser as [Hb' _].
  unfold is_u16, U16_MAX in Ha, Hb'.
  exists a, b, (format_05u a), (format_05u b).
  assert (La := format_05u_length a ltac:(lia)).
  assert (Lb := format_05u_length b ltac:(lia)).
  repeat split; try assumption.
  - apply parse_u_format_05u. lia.
  - apply parse_u_format_05u. lia.
  - rewrite !string_length_append, La, Lb. reflexivity.
Qed.

Lemma serial_number_show_format_witness :
  let priv := set_hwmon_dev 4096 0 (quadro_probe_created 250 64 1000) in
  let data := put_unaligned_be16 7 (put_unaligned_be16 1234 zeroed
                QUADRO_SERIAL_FIRST_PART) QUADRO_SERIAL_SECOND_PART in
  let st := (quadro_raw_event priv status_report data 163 1250).2 in
  reachable 250 st /\
  serial_number_show st = Ok ("01234-00007" ++ newline)%string /\
  exists a b sa sb,
    serial_number st = [a; b] /\
    serial_number_show st = Ok (sa ++ "-" ++ sb ++ newline)%string /\
    String.length sa = 5%nat /\ String.length sb = 5%nat /\
    parse_u sa = Some a /\ parse_u sb = Some b /\
    String.length (sa ++ "-" ++ sb ++ newline) = 12%nat.
Proof.
  intros priv data st.
  assert (Hj : forall j, 0 <= j <= 2000 -> is_ulong j)
    by (intros j Hj; unfold is_ulong, ULONG_MAX, BITS_PER_LONG; lia).
  assert (Hreach : reachable 250 st).
  { apply reachable_event; [|apply Hj; lia].
    apply (reachable_probe 250
             {| kzalloc_ok := true; hid_parse_ret := 0;
                hid_hw_start_ret := 0; hid_hw_open_ret := 0;
                hwmon_register_ret := 4096; debugfs_dir := 0 |}
             64 1000 0); [apply Hj; lia | reflexivity]. }
  split; [exact Hreach|]. split; [reflexivity|].
  exact (serial_number_show_format 250 st Hreach).
Defined.

(** X17: [firmware_version_show] and [power_cycles_show] print the
    number in decimal followed by a newline, and the digits read back
    as the stored firmware version and power cycle count. *)
Theorem version_and_cycles_show_format HZ priv :
  reachable HZ priv ->
  exists sv sc,
    firmware_version_show priv = (sv ++ newline)%string /\
    parse_u sv = Some (firmware_version priv) /\
    power_cycles_show priv = (sc ++ newline)%string /\
    parse_u sc = Some (power_cycles priv).
Proof.
  intros Hreach.
  destruct (reachable_invariant_aux HZ priv Hreach) as (_ & Ht & _).
  pose proof (typed_firmware _ Ht) as Hf.
  pose proof (typed_cycles _ Ht) as Hc.
  unfold is_u16, is_u32 in Hf, Hc.
  exists (format_u (firmware_version priv)), (format_u (power_cycles priv)).
  repeat split; apply parse_u_format_u; lia.
Qed.

Lemma version_and_cycles_show_format_witness :
  let priv := set_hwmon_dev 4096 0 (quadro_probe_created 250 64 1000) in
  let data := poke (put_unaligned_be16 1020 zeroed QUADRO_FIRMWARE_VERSION)
                27 x07 in
  let st := (quadro_raw_event priv status_report data 163 1250).2 in
  reachable 250 st /\
  firmware_version_show st = ("1020" ++ newline)%string /\
  power_cycles_show st = ("7" ++ newline)%string /\
  exists sv sc,
    firmware_version_show st = (sv ++ newline)%string /\
    parse_u sv = Some (firmware_version st) /\
    power_cycles_show st = (sc ++ newline)%string /\
    parse_u sc = Some (power_cycles st).
Proof.
  intros priv data st.
  assert (Hj : forall j, 0 <= j <= 2000 -> is_ulong j)
    by (intros j Hj; unfold is_ulong, ULONG_MAX, BITS_PER_LONG; lia).
  assert (Hreach : reachable 250 st).
  { apply reachable_event; [|apply Hj; lia].
    apply (reachable_probe 250
             {| kzalloc_ok := true; hid_parse_ret := 0;
                hid_hw_start_ret := 0; hid_hw_open_ret := 0;
                hwmon_register_ret := 4096; debugfs_dir := 0 |}
             64 1000 0); [apply Hj; lia | reflexivity]. }
  split; [exact Hreach|]. split; [reflexivity|]. split; [reflexivity|].
  exact (version_and_cycles_show_format 250 st Hreach).
Defined.

(** X18: the directory name [quadro_debugfs_init] builds keeps the
    first 11 characters of the device name and no more, its 32-byte
    buffer being taken up by the driver name and the hyphen: the name is
    at most 31 characters long, and two devices whose names start with
    the same 11 characters get the same directory name. *)
Theorem debugfs_name_truncated dev_name :
  quadro_debugfs_name dev_name
  = ("aquacomputer-quadro-" ++ substring 0 11 dev_name)%string /\
  (String.length (quadro_debugfs_name dev_name) <= 31)%nat /\
  (forall dev_name',
     substring 0 11 dev_name' = substring 0 11 dev_name ->
     quadro_debugfs_name dev_name' = quadro_debugfs_name dev_name).
Proof.
  assert (E : forall d, quadro_debugfs_name d
                = ("aquacomputer-quadro-" ++ substring 0 11 d)%string)
    by (intros d; reflexivity).
  split; [apply E|]. split.
  - rewrite E, string_length_append.
    pose proof (string_length_substring 11 dev_name). cbn. lia.
  - intros d' Hd. rewrite !E, Hd. reflexivity.
Qed.

(** Two Quadro devices on the same bus: their names differ in the last
    characters only, which the directory name does not keep. *)
Example debugfs_name_collision :
  quadro_debugfs_name "0003:0C70:F00D.0001"
  = quadro_debugfs_name "0003:0C70:F00D.0002".
Proof. reflexivity. Qed.
